(** * Doodstream direct-link extension: a shallow embedding of [src/main.js]

    The extension resolves a Doodstream embed page to a direct media link:
    it fetches the page, pulls a [pass_md5] fragment and a token out of it
    with two regular expressions, fetches the [pass_md5] URL and glues the
    answer to a random suffix, the token and the current time.

    The embedding keeps the shape of the JavaScript: every method of the
    class [Extension] is a definition of the same name, written in a small
    state-and-exception monad.  What the host gives the program ([fetch],
    [Math.random], [Date.now], timers, the [URL] constructor, the console)
    is modelled by an oracle record [World] and by a [State] that records
    every effect in a trace.

    The file has four parts: the model of the program and of its host,
    with the vocabulary of the specification and some concrete worlds;
    lemmas about strings, patterns, rounding and runs of the program; the
    claims of the specification, each with its theorem; and further
    properties of the single methods and of whole runs. *)

From Stdlib Require Import ZArith List Bool Ascii String Lia.
From Stdlib Require Import DecimalString DecimalZ.
Import ListNotations.

Open Scope string_scope.
Open Scope Z_scope.

(** ** JavaScript strings

    A JavaScript string is a sequence of UTF-16 code units.  It is modelled
    by a Rocq [string], one [ascii] per code unit, so the model covers the
    strings whose code units are below 256. *)

Module JSString.

Definition code (c : ascii) : N := N_of_ascii c.

Definition in_range (lo hi : N) (c : ascii) : bool :=
  ((lo <=? code c) && (code c <=? hi))%N.

Definition is_upper (c : ascii) : bool := in_range 65 90 c.
Definition is_lower (c : ascii) : bool := in_range 97 122 c.
Definition is_digit (c : ascii) : bool := in_range 48 57 c.

(** The class [[a-zA-Z0-9]]. *)
Definition is_alnum (c : ascii) : bool :=
  is_lower c || is_upper c || is_digit c.

(** WhiteSpace and LineTerminator code units below 256: TAB, LF, VT, FF,
    CR, SP and NBSP.  These are what [String.prototype.trim] strips. *)
Definition is_white (c : ascii) : bool :=
  in_range 9 13 c || (code c =? 32)%N || (code c =? 160)%N.

Fixpoint forallb (p : ascii -> bool) (s : string) : bool :=
  match s with
  | EmptyString => true
  | String c s' => p c && forallb p s'
  end.

(** [s.startsWith(p)] *)
Definition startsWith (s p : string) : bool := String.prefix p s.

(** [s.charAt(i)]: the one-unit string at [i], or the empty string when
    [i] is out of range. *)
Definition charAt (s : string) (i : Z) : string :=
  if i <? 0 then ""
  else match String.get (Z.to_nat i) s with
       | Some c => String c ""
       | None => ""
       end.

Fixpoint trimStart (s : string) : string :=
  match s with
  | EmptyString => ""
  | String c s' => if is_white c then trimStart s' else s
  end.

Fixpoint trimEnd (s : string) : string :=
  match s with
  | EmptyString => ""
  | String c s' =>
      match trimEnd s' with
      | EmptyString => if is_white c then "" else String c ""
      | t => String c t
      end
  end.

(** [s.trim()] *)
Definition trim (s : string) : string := trimEnd (trimStart s).

(** [s.split(sep)] for a one-unit separator: never the empty array. *)
Fixpoint split (sep : ascii) (s : string) : list string :=
  match s with
  | EmptyString => [""]
  | String c s' =>
      if Ascii.eqb c sep then "" :: split sep s'
      else match split sep s' with
           | h :: t => String c h :: t
           | [] => [String c ""]
           end
  end.

(** Truthiness of a value that is a string or [null]: [null] and the
    empty string are falsy. *)
Definition truthy (v : option string) : bool :=
  match v with
  | None => false
  | Some EmptyString => false
  | Some (String _ _) => true
  end.

(** [String(n)] for an integral Number below 10^21 in magnitude: plain
    decimal digits, with a minus sign when negative. *)
Definition Number_toString (n : Z) : string :=
  NilZero.string_of_int (Z.to_int n).

End JSString.
Import JSString.

(** ** Regular expressions

    The two patterns of the source are sequences of character classes, each
    taken once or under a greedy star, with one capture group.  [exec] is
    the backtracking matcher of [RegExp.prototype.exec] for such patterns:
    leftmost match, greedy stars, and the text of group 1 as the result. *)

Module RegExp.

Inductive CharClass :=
| Lit (c : ascii)       (* the character c *)
| Not (c : ascii)       (* [^c] *)
| AlNum.                (* [a-zA-Z0-9] *)

Inductive Item :=
| One (cs : CharClass)
| Star (cs : CharClass)
| GroupOpen
| GroupClose.

Definition Pattern := list Item.

Definition mem (cs : CharClass) (c : ascii) : bool :=
  match cs with
  | Lit d => Ascii.eqb c d
  | Not d => negb (Ascii.eqb c d)
  | AlNum => is_alnum c
  end.

(** A character consumed inside the group belongs to the capture. *)
Definition keep (cap : bool) (c : ascii) (r : string) : string :=
  if cap then String c r else r.

(** Greedy star: take one more character if the class allows it and the
    rest then matches, otherwise hand over to the continuation. *)
Fixpoint star (cs : CharClass) (cap : bool) (k : string -> option string)
         (s : string) : option string :=
  match s with
  | String c s' =>
      if mem cs c then
        match star cs cap k s' with
        | Some r => Some (keep cap c r)
        | None => k s
        end
      else k s
  | EmptyString => k s
  end.

(** Match the pattern at the start of [s]; [cap] tells whether the group
    is open.  The result is the text captured by the group. *)
Fixpoint match_here (p : Pattern) (cap : bool) (s : string) : option string :=
  match p with
  | [] => Some ""
  | GroupOpen :: p' => match_here p' true s
  | GroupClose :: p' => match_here p' false s
  | One cs :: p' =>
      match s with
      | String c s' =>
          if mem cs c then option_map (keep cap c) (match_here p' cap s')
          else None
      | EmptyString => None
      end
  | Star cs :: p' => star cs cap (match_here p' cap) s
  end.

(** Try every start position from the left. *)
Fixpoint exec (p : Pattern) (s : string) : option string :=
  match match_here p false s with
  | Some r => Some r
  | None =>
      match s with
      | EmptyString => None
      | String _ s' => exec p s'
      end
  end.

Fixpoint literal (s : string) : Pattern :=
  match s with
  | EmptyString => []
  | String c s' => One (Lit c) :: literal s'
  end.

(** [cs+] *)
Definition plus (cs : CharClass) : Pattern := [One cs; Star cs].

End RegExp.
Import RegExp.

(** ** Constants of the source *)

Definition DOODSTREAM_BASE_URL : string := "https://dood.li".

Definition RANDOM_STRING_CHARS : string :=
  "ABCDEFGHIJKLMNOPQRSTUVWXYZabcdefghijklmnopqrstuvwxyz0123456789".

(** The source's [PASS_MD5_PATTERN]: the text [$.get('], then the group,
    which is any run without a quote, [/pass_md5/] and again any run
    without a quote, then the closing quote. *)
Definition PASS_MD5_PATTERN : Pattern :=
  (literal "$.get('"
   ++ [GroupOpen; Star (Not "'")] ++ literal "/pass_md5/"
   ++ [Star (Not "'"); GroupClose]
   ++ literal "'")%list.

(** The source's [TOKEN_PATTERN]: the text [token=], then the group, which
    is one or more letters or digits. *)
Definition TOKEN_PATTERN : Pattern :=
  (literal "token=" ++ [GroupOpen] ++ plus AlNum ++ [GroupClose])%list.

(** Thirty seconds, in milliseconds. *)
Definition DEFAULT_REQUEST_TIMEOUT : Z := 30000.

Definition RANDOM_USER_AGENT : string :=
  "Mozilla/5.0 (Windows NT 10.0; Win64; x64) AppleWebKit/537.36 (KHTML, like Gecko) Chrome/91.0.4472.124 Safari/537.36".

(** ** Numbers

    [Math.random()] returns a binary64 number in the interval [0, 1).
    Every such number is [n / 2^1074] for a natural number [n] that has at
    most 53 significant bits, and it is modelled by that numerator.  The
    product with a small integer is rounded to nearest, ties to even, as
    IEEE 754 multiplication does, before [Math.floor] is taken. *)

Module Double.

Definition precision : Z := 53.
Definition scale : Z := 2 ^ 1074.

(** Over the scale, the spacing of the numbers in [1/2, 1): they are the
    multiples of 2^-53. *)
Definition spacing : Z := 2 ^ 1021.

(** Round a numerator to 53 significant bits, ties to even. *)
Definition round53 (n : Z) : Z :=
  if n <? 2 ^ precision then n
  else
    let s := Z.log2 n - (precision - 1) in
    let q := n / 2 ^ s in
    let r := n mod 2 ^ s in
    let half := 2 ^ (s - 1) in
    let up := (half <? r) || ((half =? r) && Z.odd q) in
    (if up then q + 1 else q) * 2 ^ s.

(** The numerators of the binary64 numbers in [0, 1). *)
Definition unit_interval (n : Z) : bool :=
  (0 <=? n) && (n <? scale) && (round53 n =? n).

(** [Math.floor(x * k)] for the number [x] of numerator [n] and an
    integer [k]. *)
Definition floor_mul (n k : Z) : Z := round53 (n * k) / scale.

End Double.

(** ** The host: exceptions, responses, oracles and effects *)

Inductive Exn :=
| Error (message : string)        (* new Error(message) *)
| TypeError (message : string)    (* network failure, invalid URL *)
| AbortError.                     (* the request was aborted *)

Inductive Completion (A : Type) :=
| Normal (a : A)
| Throw (e : Exn).
Arguments Normal {A} a.
Arguments Throw {A} e.

Definition Headers := list (string * string).

(** A [Response]: its status and what reading its body as text gives. *)
Record Response := mkResponse {
  status : Z;
  text : Completion string
}.

(** [response.ok] *)
Definition ok (r : Response) : bool :=
  (200 <=? status r) && (status r <=? 299).

(** How a [fetch] ends: with a response, with a rejection, or not at all
    within the time the timer allows. *)
Inductive Settlement :=
| Resolves (r : Response)
| Rejects (e : Exn)
| Stalls.

(** What the program reads of a [URL] object. *)
Record URL := mkURL {
  href : string;
  pathname : string
}.

(** The oracles.  The n-th call of [fetch], [Math.random] and [Date.now]
    is answered by the n-th entry; [URL_ctor input base] is [new URL(input,
    base)], [None] when it throws. *)
Record World := mkWorld {
  fetch_settles : nat -> string -> Settlement;
  Math_random : nat -> Z;
  Date_now : nat -> Z;
  URL_ctor : string -> option string -> option URL
}.

Inductive Event :=
| EvFetch (url : string) (headers : Headers)
| EvSetTimeout (id : nat) (delay : Z)
| EvClearTimeout (id : nat)
| EvTimerFired (id : nat)
| EvRandom
| EvNow
| EvLog (message : string)
| EvError (message : string) (error : Exn).

(** The state of the host: how many oracle answers were consumed, the
    timers that are armed, and everything that happened, oldest first. *)
Record State := mkState {
  fetches : nat;
  randoms : nat;
  clocks : nat;
  next_timer : nat;
  timers : list nat;
  trace : list Event
}.

Definition initial : State := mkState 0 0 0 0 [] [].

Definition emit (e : Event) (st : State) : State :=
  mkState (fetches st) (randoms st) (clocks st) (next_timer st) (timers st)
          (trace st ++ [e]).

Definition disarm (id : nat) (st : State) : State :=
  mkState (fetches st) (randoms st) (clocks st) (next_timer st)
          (List.filter (fun t => negb (Nat.eqb t id)) (timers st)) (trace st).

(** The URLs requested so far, oldest first. *)
Fixpoint requests (t : list Event) : list string :=
  match t with
  | [] => []
  | EvFetch url _ :: t' => url :: requests t'
  | _ :: t' => requests t'
  end.

(** ** The monad of the program: state and exceptions *)

Definition M (A : Type) : Type := State -> Completion A * State.

Definition ret {A} (a : A) : M A := fun st => (Normal a, st).

Definition throw {A} (e : Exn) : M A := fun st => (Throw e, st).

Definition bind {A B} (m : M A) (k : A -> M B) : M B :=
  fun st =>
    match m st with
    | (Normal a, st') => k a st'
    | (Throw e, st') => (Throw e, st')
    end.

(** [try { m } catch (error) { h error }] *)
Definition try_catch {A} (m : M A) (h : Exn -> M A) : M A :=
  fun st =>
    match m st with
    | (Normal a, st') => (Normal a, st')
    | (Throw e, st') => h e st'
    end.

Declare Scope js_scope.
Delimit Scope js_scope with js.
Notation "x <- m ;; k" := (bind m (fun x => k))
  (at level 61, m at next level, right associativity) : js_scope.
Notation "m ;; k" := (bind m (fun _ => k))
  (at level 61, right associativity) : js_scope.
Open Scope js_scope.

Definition console_log (message : string) : M unit :=
  fun st => (Normal tt, emit (EvLog message) st).

Definition console_error (message : string) (error : Exn) : M unit :=
  fun st => (Normal tt, emit (EvError message error) st).

(** [setTimeout(() => controller.abort(), delay)]: arms a fresh timer. *)
Definition setTimeout (delay : Z) : M nat :=
  fun st =>
    let id := next_timer st in
    (Normal id,
     emit (EvSetTimeout id delay)
          (mkState (fetches st) (randoms st) (clocks st) (S id)
                   (id :: timers st) (trace st))).

Definition clearTimeout (id : nat) : M unit :=
  fun st => (Normal tt, emit (EvClearTimeout id) (disarm id st)).

Section Host.

Variable w : World.

(** [await fetch(url, { headers, signal })], where [signal] belongs to
    the controller that timer [timer] aborts.  A request that stalls is
    ended by the timer: it fires, aborts, and the fetch rejects. *)
Definition fetch (url : string) (headers : Headers) (timer : nat) : M Response :=
  fun st =>
    let st' :=
      emit (EvFetch url headers)
           (mkState (S (fetches st)) (randoms st) (clocks st) (next_timer st)
                    (timers st) (trace st)) in
    match fetch_settles w (fetches st) url with
    | Resolves r => (Normal r, st')
    | Rejects e => (Throw e, st')
    | Stalls => (Throw AbortError, emit (EvTimerFired timer) (disarm timer st'))
    end.

(** [await response.text()] *)
Definition response_text (r : Response) : M string :=
  fun st => (text r, st).

(** [Math.random()] *)
Definition random : M Z :=
  fun st =>
    (Normal (Math_random w (randoms st)),
     emit EvRandom
          (mkState (fetches st) (S (randoms st)) (clocks st) (next_timer st)
                   (timers st) (trace st))).

(** [Date.now()]: an integral number of milliseconds. *)
Definition now : M Z :=
  fun st =>
    (Normal (Date_now w (clocks st)),
     emit EvNow
          (mkState (fetches st) (randoms st) (S (clocks st)) (next_timer st)
                   (timers st) (trace st))).

(** [new URL(input, base)] *)
Definition new_URL (input : string) (base : option string) : M URL :=
  match URL_ctor w input base with
  | Some u => ret u
  | None => throw (TypeError "Invalid URL")
  end.

End Host.

(** ** The class [Extension] *)

(** An argument as a caller may pass it: absent, [null], or a string. *)
Inductive Value :=
| Undefined
| Null
| Str (s : string).

Record Metadata := mkMetadata {
  mp4 : string;
  name : string;
  quality : string;
  size : option Z;
  headers : Headers
}.

(** [a[i]]: [undefined] outside the array. *)
Definition array_get (a : list string) (i : Z) : option string :=
  if i <? 0 then None else nth_error a (Z.to_nat i).

(** [v || d] for a string or [undefined] on the left. *)
Definition or_else (v : option string) (d : string) : string :=
  match v with
  | Some s => if truthy v then s else d
  | None => d
  end.

Definition _getHeaders : Headers :=
  [ ("User-Agent",
     "Mozilla/5.0 (Windows NT 10.0; Win64; x64) AppleWebKit/537.36 (KHTML, like Gecko) Chrome/120.0.0.0 Safari/537.36");
    ("Referer", DOODSTREAM_BASE_URL ++ "/");
    ("Origin", "https://dood.li");
    ("Accept", "*/*");
    ("Accept-Language", "en-US,en;q=0.9") ].

(** [content.match(pattern)], then group 1 or [null]. *)
Definition _extractData (pattern : Pattern) (content : string) : option string :=
  match exec pattern content with
  | Some group1 => Some group1
  | None => None
  end.

Section Extension.

Variable w : World.

Definition _makeRequest (url : string) (headers : Headers) : M Response :=
  try_catch
    (timeoutId <- setTimeout DEFAULT_REQUEST_TIMEOUT ;;
     response <- fetch w url headers timeoutId ;;
     clearTimeout timeoutId ;;
     if negb (ok response)
     then throw (Error ("HTTP error! status: " ++ Number_toString (status response)))
     else ret response)
    (fun error =>
       console_error ("Request failed for " ++ url ++ ":") error ;;
       throw error).

(** The loop of [_generateRandomString]: [n] rounds are left. *)
Fixpoint random_chars (n : nat) (result : string) : M string :=
  match n with
  | O => ret result
  | S n' =>
      x <- random w ;;
      random_chars n'
        (result ++ charAt RANDOM_STRING_CHARS
                     (Double.floor_mul x (Z.of_nat (String.length RANDOM_STRING_CHARS))))
  end.

Definition _generateRandomString (length : Z) : M string :=
  random_chars (Z.to_nat length) "".

Definition _extractPassMd5Url (content embedUrl : string) : M string :=
  let passMd5Url := _extractData PASS_MD5_PATTERN content in
  match passMd5Url with
  | Some fragment =>
      if negb (truthy passMd5Url)
      then throw (Error ("pass_md5 URL not found in " ++ embedUrl))
      else
        fullUrl <-
          (if negb (startsWith fragment "http")
           then u <- new_URL w fragment (Some DOODSTREAM_BASE_URL) ;; ret (href u)
           else ret fragment) ;;
        console_log ("Extracted pass_md5 URL: " ++ fullUrl) ;;
        ret fullUrl
  | None => throw (Error ("pass_md5 URL not found in " ++ embedUrl))
  end.

Definition _extractToken (content embedUrl : string) : M string :=
  let token := _extractData TOKEN_PATTERN content in
  match token with
  | Some t =>
      if negb (truthy token)
      then throw (Error ("Token not found in " ++ embedUrl))
      else console_log ("Extracted token: " ++ t) ;; ret t
  | None => throw (Error ("Token not found in " ++ embedUrl))
  end.

Definition _getVideoBaseUrl (passMd5Url : string) (headers : Headers) : M string :=
  try_catch
    (md5Response <- _makeRequest passMd5Url headers ;;
     body <- response_text md5Response ;;
     let videoBaseUrl := trim body in
     if negb (truthy (Some videoBaseUrl))
     then throw (Error "Empty video base URL received")
     else
       console_log ("Retrieved video base URL: " ++ videoBaseUrl) ;;
       ret videoBaseUrl)
    (fun error =>
       console_error ("Failed to get video base URL from " ++ passMd5Url ++ ":") error ;;
       throw error).

(** [Date.now()] is integral and of magnitude at most 8.64e15, a range on
    which the rounded quotient by 1000 has the floor of the exact one. *)
Definition _buildDirectLink (videoBaseUrl token : string) : M string :=
  randomString <- _generateRandomString 10 ;;
  t <- now w ;;
  let expiry := t / 1000 in
  let directLink :=
    videoBaseUrl ++ randomString ++ "?token=" ++ token
                 ++ "&expiry=" ++ Number_toString expiry in
  console_log ("Built direct link: " ++ directLink) ;;
  ret directLink.

Definition getDirectLink (embededDoodstreamLink : Value) : M string :=
  match embededDoodstreamLink with
  | Undefined | Null => throw (Error "Embed URL cannot be empty")
  | Str url =>
      if negb (truthy (Some url))
      then throw (Error "Embed URL cannot be empty")
      else
        console_log ("Extracting direct link from Doodstream: " ++ url) ;;
        try_catch
          (let headers := _getHeaders in
           console_log "Fetching embed page content..." ;;
           response <- _makeRequest url headers ;;
           content <- response_text response ;;
           passMd5Url <- _extractPassMd5Url content url ;;
           token <- _extractToken content url ;;
           videoBaseUrl <- _getVideoBaseUrl passMd5Url headers ;;
           directLink <- _buildDirectLink videoBaseUrl token ;;
           console_log "Successfully extracted Doodstream direct link" ;;
           ret directLink)
          (fun error =>
             console_error "Failed to extract direct link from Doodstream:" error ;;
             throw error)
  end.

Definition getMetadata (url : Value) : M Metadata :=
  try_catch
    (mp4Url <- getDirectLink url ;;
     urlObj <- new_URL w (match url with Str s => s | _ => "" end) None ;;
     let pathParts := split "/" (pathname urlObj) in
     let fileId :=
       or_else (array_get pathParts (Z.of_nat (List.length pathParts) - 1)) "video" in
     let fileName := "doodstream_" ++ fileId ++ ".mp4" in
     let fileSize : option Z := None in
     ret (mkMetadata mp4Url fileName "Unknown" fileSize _getHeaders))
    (fun error =>
       console_error "Failed to get metadata:" error ;;
       throw error).

End Extension.

(** ** A reference for the [URL] constructor

    The program is modelled for any [URL_ctor].  For concrete runs,
    [URLStandard.parse] follows the parser of the URL Standard on plain
    inputs: an optional [http://] or [https://] with a lower-case host
    name, and a path of letters, digits and [- . _ ~ / :] without dot
    segments.  On these the parser neither percent-encodes nor normalises
    anything.  Every other input is [Outside] the reference. *)

Module URLStandard.

Inductive Result (A : Type) :=
| Parsed (a : A)
| Failure            (* the constructor throws a TypeError *)
| Outside.           (* not covered by the reference *)
Arguments Parsed {A} a.
Arguments Failure {A}.
Arguments Outside {A}.

Record Parts := mkParts {
  scheme : string;
  host : string;
  path : string
}.

Definition serialize (p : Parts) : URL :=
  mkURL (scheme p ++ "://" ++ host p ++ path p) (path p).

Definition is_path_mark (c : ascii) : bool :=
  existsb (Ascii.eqb c) ["-"; "."; "_"; "~"; "/"; ":"]%char.

Definition is_plain (c : ascii) : bool := is_alnum c || is_path_mark c.

Definition is_host_char (c : ascii) : bool :=
  is_lower c || is_digit c || Ascii.eqb c "-" || Ascii.eqb c ".".

Definition is_scheme_char (c : ascii) : bool :=
  is_alnum c || existsb (Ascii.eqb c) ["+"; "-"; "."]%char.

(** The longest prefix of [s] in the class [p], and the rest. *)
Fixpoint span (p : ascii -> bool) (s : string) : string * string :=
  match s with
  | EmptyString => ("", "")
  | String c s' =>
      if p c then let (a, b) := span p s' in (String c a, b)
      else ("", s)
  end.

Definition drop (n : nat) (s : string) : string :=
  substring n (String.length s - n) s.

(** Does [s] open with a scheme: a letter, scheme characters, a colon? *)
Definition has_scheme (s : string) : bool :=
  match s with
  | String c _ =>
      (is_upper c || is_lower c)
      && startsWith (snd (span is_scheme_char s)) ":"
  | EmptyString => false
  end.

(** A host name that the host parser returns as it is: non-empty
    lower-case labels, none in Punycode form, the last one not opening
    with a digit (so that the name does not end in a number). *)
Definition label_ok (l : string) : bool :=
  negb (l =? "")%string && negb (String.prefix "xn--" l).

Definition simple_host (h : string) : bool :=
  JSString.forallb is_host_char h
  && List.forallb label_ok (split "." h)
  && match array_get (split "." h) (Z.of_nat (List.length (split "." h)) - 1) with
     | Some (String c _) => negb (is_digit c)
     | _ => false
     end.

(** A path without dot segments. *)
Definition simple_path (p : string) : bool :=
  List.forallb (fun seg => negb ((seg =? ".") || (seg =? ".."))%string)
               (split "/" p).

(** What follows the two slashes of a special scheme: the authority up
    to the next slash, then the path.  No host at all, or a colon where
    the host should start, is a failure of the parser. *)
Definition authority (sch rest : string) : Result Parts :=
  let (auth, p) := span (fun c => negb (Ascii.eqb c "/")) rest in
  if (auth =? "")%string then
    if (p =? "")%string then Failure else Outside
  else if startsWith auth ":" then Failure
  else if simple_host auth && simple_path p
       then Parsed (mkParts sch auth (if (p =? "")%string then "/" else p))
       else Outside.

(** An input that opens with a scheme. *)
Definition absolute (input : string) : Result Parts :=
  if negb (JSString.forallb is_plain input) then Outside
  else if String.prefix "https://" input then authority "https" (drop 8 input)
  else if String.prefix "http://" input then authority "http" (drop 7 input)
  else Outside.

(** The path up to and including its last slash. *)
Fixpoint directory (p : string) : string :=
  match p with
  | EmptyString => ""
  | String c p' =>
      match directory p' with
      | EmptyString => if Ascii.eqb c "/" then "/" else ""
      | d => String c d
      end
  end.

(** An input without a scheme, against the parts of the base. *)
Definition relative (input : string) (base : Parts) : Result Parts :=
  if (input =? "")%string then Outside
  else if startsWith input "//" then authority (scheme base) (drop 2 input)
  else if negb (simple_path input) then Outside
  else if startsWith input "/"
       then Parsed (mkParts (scheme base) (host base) input)
       else Parsed (mkParts (scheme base) (host base)
                            (directory (path base) ++ input)).

Definition parts (input : string) (base : option string) : Result Parts :=
  if negb (JSString.forallb is_plain input) then Outside
  else if has_scheme input then absolute input
  else
    match base with
    | None => Failure                  (* a relative URL without a base *)
    | Some b =>
        match absolute b with
        | Parsed pb => relative input pb
        | Failure | Outside => Outside
        end
    end.

Definition parse (input : string) (base : option string) : Result URL :=
  match parts input base with
  | Parsed p => Parsed (serialize p)
  | Failure => Failure
  | Outside => Outside
  end.

(** Does the reference say what the constructor does on this input? *)
Definition covered (input : string) (base : option string) : bool :=
  match parse input base with
  | Parsed _ | Failure => true
  | Outside => false
  end.

(** The reference as a [URL_ctor].  On a [covered] input this is what the
    constructor does.  On any other input the answer [None] is a
    placeholder and not the constructor's: a world built on [ctor] stands
    for the host only in runs that hand the constructor covered inputs. *)
Definition ctor (input : string) (base : option string) : option URL :=
  match parse input base with
  | Parsed u => Some u
  | Failure | Outside => None
  end.

End URLStandard.

(** ** The vocabulary of the specification

    The specification names kinds of failure; the program throws plain
    [Error] objects.  [Spec] says which thrown value each kind is, and
    holds the notions the specification words its properties with. *)

Module Spec.

Inductive Field := pass_md5 | token.

Definition label (f : Field) : string :=
  match f with
  | pass_md5 => "pass_md5 URL"
  | token => "Token"
  end.

Definition InvalidInput : Exn := Error "Embed URL cannot be empty".

Definition HttpError (status : Z) : Exn :=
  Error ("HTTP error! status: " ++ Number_toString status).

Definition ExtractionError (field : Field) (sourceUrl : string) : Exn :=
  Error (label field ++ " not found in " ++ sourceUrl).

Definition EmptyResponse : Exn := Error "Empty video base URL received".

Definition Timeout : Exn := AbortError.

(** A relative URL is one that does not open with a scheme. *)
Definition relative (fragment : string) : bool :=
  negb (URLStandard.has_scheme fragment).

(** An absolute URL rooted at the service origin. *)
Definition rooted_at_origin (url : string) : bool :=
  String.prefix (DOODSTREAM_BASE_URL ++ "/") url.

(** The last non-empty path segment, if there is one. *)
Definition last_nonempty_segment (path : string) : option string :=
  List.last (List.map Some
               (List.filter (fun seg => negb (seg =? "")%string) (split "/" path)))
            None.

(** The file name as the specification words it. *)
Definition file_name (path : string) : string :=
  "doodstream_"
    ++ match last_nonempty_segment path with
       | Some seg => seg
       | None => "video"
       end
    ++ ".mp4".

End Spec.

(** ** Notions used to state the properties *)

(** The n-th request, sent to [url], is answered with a success status
    and a body that reads as [body]. *)
Definition served (w : World) (n : nat) (url body : string) : Prop :=
  exists r, fetch_settles w n url = Resolves r /\ ok r = true /\ text r = Normal body.

(** The URL that the program requests for a fragment: the fragment itself
    when it starts with [http], otherwise what the [URL] constructor makes
    of it against the service origin. *)
Definition pass_md5_target (w : World) (fragment : string) : option string :=
  if startsWith fragment "http" then Some fragment
  else option_map href (URL_ctor w fragment (Some DOODSTREAM_BASE_URL)).

(** From state [st] the embed page at [url] is served, both patterns
    match, and the [pass_md5] request is served a non-blank body. *)
Definition resolvable (w : World) (st : State) (url token videoBaseUrl : string) : Prop :=
  exists content fragment passUrl body,
    served w (fetches st) url content /\
    _extractData PASS_MD5_PATTERN content = Some fragment /\
    _extractData TOKEN_PATTERN content = Some token /\
    pass_md5_target w fragment = Some passUrl /\
    served w (S (fetches st)) passUrl body /\
    trim body = videoBaseUrl /\
    videoBaseUrl <> "".

(** [Math.random] keeps to the interval [0, 1). *)
Definition random_in_unit_interval (w : World) : Prop :=
  forall n, Double.unit_interval (Math_random w n) = true.

(** The character that one round of the random loop appends for the
    number of numerator [x]. *)
Definition random_char (x : Z) : string :=
  charAt RANDOM_STRING_CHARS
         (Double.floor_mul x (Z.of_nat (String.length RANDOM_STRING_CHARS))).

(** The [n] characters that the loop appends from draw [k] on. *)
Fixpoint drawn (w : World) (n k : nat) : string :=
  match n with
  | O => ""
  | S n' => random_char (Math_random w k) ++ drawn w n' (S k)
  end.

(** The state after [n] draws. *)
Definition drew (n : nat) (st : State) : State :=
  mkState (fetches st) (n + randoms st) (clocks st) (next_timer st) (timers st)
          (trace st ++ List.repeat EvRandom n).

(** The last element of the pathname split at slashes, or ["video"] when
    that element is empty. *)
Definition last_segment_or_video (path : string) : string :=
  match List.last (split "/" path) "" with
  | EmptyString => "video"
  | seg => seg
  end.

(** Is a character certainly captured once the pattern has matched? *)
Fixpoint must_capture (p : Pattern) (cap : bool) : bool :=
  match p with
  | [] => false
  | GroupOpen :: p' => must_capture p' true
  | GroupClose :: p' => must_capture p' false
  | One _ :: p' => cap || must_capture p' cap
  | Star _ :: p' => must_capture p' cap
  end.

(** ** Concrete worlds *)

Module Examples.

Definition embed : string := "https://dood.li/e/abc123".
Definition embed_slash : string := "https://dood.li/e/abc123/".

(** An embed page as the service sends it: a call that loads the
    [pass_md5] path, and the token in the query it builds. *)
Definition page (fragment : string) : string :=
  "<script>$.get('" ++ fragment
    ++ "', function(data){ play(data + make() + '?token=tk9abc&expiry=' + Date.now()); });</script>".

Definition page_without_token (fragment : string) : string :=
  "<script>$.get('" ++ fragment ++ "', function(data){ play(data); });</script>".

Definition page_without_anything : string :=
  "<html><body>File not found</body></html>".

Definition answer (status : Z) (body : string) : Settlement :=
  Resolves (mkResponse status (Normal body)).

Definition video_base : string := "https://cdn.example/v/abc~".

(** A network given by a table from URLs to settlements; an unknown
    URL is a network failure. *)
Fixpoint lookup (table : list (string * Settlement)) (url : string) : Settlement :=
  match table with
  | [] => Rejects (TypeError "Failed to fetch")
  | (u, s) :: rest => if (u =? url)%string then s else lookup rest url
  end.

(** Ten numbers, repeated: (6 k + 1) / 64 for k = 0 .. 9. *)
Definition periodic (n : nat) : Z :=
  (6 * Z.of_nat (n mod 10) + 1) * 2 ^ 1068.

(** The clock moves on by a quarter of a second per reading. *)
Definition ticking (n : nat) : Z := 1730000000123 + 250 * Z.of_nat n.

Definition world (table : list (string * Settlement)) : World :=
  mkWorld (fun _ url => lookup table url) periodic ticking URLStandard.ctor.

(** The ordinary case. *)
Definition w_ok : World :=
  world [ (embed, answer 200 (page "/pass_md5/xyz"));
          (embed_slash, answer 200 (page "/pass_md5/xyz"));
          ("https://dood.li/pass_md5/xyz",
           answer 200 (" " ++ video_base ++ String "010" "")) ].

(** The page has no token. *)
Definition w_no_token : World :=
  world [ (embed, answer 200 (page_without_token "/pass_md5/xyz")) ].

(** The page has no token and a fragment that is no URL. *)
Definition w_bad_fragment : World :=
  world [ (embed, answer 200 (page_without_token "//:80/pass_md5/xyz")) ].

(** The page has neither a fragment nor a token. *)
Definition w_nothing : World :=
  world [ (embed, answer 200 page_without_anything) ].

(** The fragment is a relative path that starts with the letters http. *)
Definition w_httpdocs : World :=
  world [ (embed, answer 200 (page "httpdocs/pass_md5/xyz")) ].

(** The [pass_md5] endpoint answers with white space only. *)
Definition w_blank : World :=
  world [ (embed, answer 200 (page "/pass_md5/xyz"));
          ("https://dood.li/pass_md5/xyz", answer 200 (String "032" (String "010" ""))) ].

(** The embed page is gone. *)
Definition w_404 : World :=
  world [ (embed, answer 404 "Not Found") ].

(** The [pass_md5] endpoint refuses. *)
Definition w_403 : World :=
  world [ (embed, answer 200 (page "/pass_md5/xyz"));
          ("https://dood.li/pass_md5/xyz", answer 403 "Forbidden") ].

(** No network: every request is rejected. *)
Definition w_offline : World := world [].

End Examples.

(** ** Notions for the properties of single methods and of whole runs *)

(** The requests made so far with the headers they carried, oldest
    first. *)
Fixpoint fetched (t : list Event) : list (string * Headers) :=
  match t with
  | [] => []
  | EvFetch url headers :: t' => (url, headers) :: fetched t'
  | _ :: t' => fetched t'
  end.

(** The timers armed so far, with their delays, oldest first. *)
Fixpoint armed (t : list Event) : list (nat * Z) :=
  match t with
  | [] => []
  | EvSetTimeout id delay :: t' => (id, delay) :: armed t'
  | _ :: t' => armed t'
  end.

(** What the console has shown of errors, oldest first. *)
Fixpoint reported (t : list Event) : list Exn :=
  match t with
  | [] => []
  | EvError _ e :: t' => e :: reported t'
  | _ :: t' => reported t'
  end.


(** [needle] occurs in [s]. *)
Definition occurs (needle s : string) : Prop :=
  exists a b, s = a ++ needle ++ b.

(** Does [s] start with a character of [p]? *)
Definition starts_in (p : ascii -> bool) (s : string) : bool :=
  match s with
  | EmptyString => false
  | String c _ => p c
  end.

(** Does [s] end with a character of [p]? *)
Fixpoint ends_in (p : ascii -> bool) (s : string) : bool :=
  match s with
  | EmptyString => false
  | String c EmptyString => p c
  | String _ s' => ends_in p s'
  end.

Definition not_quote (c : ascii) : bool := mem (Not "'") c.

Definition not_slash (c : ascii) : bool := negb (Ascii.eqb c "/").

(** The capture after a part [a] of the input was consumed: [a] belongs
    to it when the group is open. *)
Definition kept (cap : bool) (a r : string) : string :=
  if cap then a ++ r else r.

(** The text [token=] followed by a letter or digit occurs in
    [content]. *)
Definition token_occurs (content : string) : Prop :=
  exists pre c rest,
    content = pre ++ "token=" ++ String c rest /\ is_alnum c = true.

(** [fragment] is text without a quote that contains [/pass_md5/]. *)
Definition fragment_like (fragment : string) : Prop :=
  JSString.forallb not_quote fragment = true /\ occurs "/pass_md5/" fragment.

(** A call [$.get('...'] occurs in [content], [pre] before it, whose
    quoted argument is [fragment]. *)
Definition fragment_at (content pre fragment : string) : Prop :=
  fragment_like fragment /\
  exists post, content = pre ++ "$.get('" ++ fragment ++ "'" ++ post.

(** ** More concrete worlds *)

Module Failures.

Import Examples.

Definition pass_md5_url : string := "https://dood.li/pass_md5/xyz".

(** The embed page is never answered. *)
Definition w_stalls : World :=
  world [ (embed, Stalls) ].

(** The [pass_md5] endpoint is never answered. *)
Definition w_pass_stalls : World :=
  world [ (embed, answer 200 (page "/pass_md5/xyz"));
          (pass_md5_url, Stalls) ].

(** The [pass_md5] endpoint cannot be reached. *)
Definition w_pass_offline : World :=
  world [ (embed, answer 200 (page "/pass_md5/xyz")) ].

(** The body of the embed page cannot be read. *)
Definition w_unreadable : World :=
  world [ (embed, Resolves (mkResponse 200 (Throw (TypeError "Failed to fetch")))) ].

(** The body of the [pass_md5] answer cannot be read. *)
Definition w_pass_unreadable : World :=
  world [ (embed, answer 200 (page "/pass_md5/xyz"));
          (pass_md5_url, Resolves (mkResponse 200 (Throw (TypeError "Failed to fetch")))) ].

(** A network that serves a path without scheme and host, as a host with
    a page origin would. *)
Definition w_relative : World :=
  world [ ("e/abc123", answer 200 (page "/pass_md5/xyz"));
          (pass_md5_url, answer 200 video_base) ].

End Failures.

(** * Properties *)

(** ** Proof tools *)

(** Unfold the methods and the monad. *)
Ltac unfold_js :=
  unfold getMetadata, getDirectLink, _buildDirectLink, _getVideoBaseUrl,
    _extractToken, _extractPassMd5Url, _makeRequest, new_URL, response_text,
    fetch, now, setTimeout, clearTimeout, console_log, console_error,
    try_catch, bind, ret, throw.

(** Rewrite with a fact about the run, then compute on. *)
Ltac step H := rewrite H; cbn.

(** A request of a concrete world is answered: find the response. *)
Ltac served_here := eexists; split; [vm_compute; reflexivity | split; reflexivity].

Create Rewrite HintDb requests.
Create Rewrite HintDb runs.

(** Bring the requests of a computed trace into the form
    [requests (trace st) ++ new]; the lemmas about [requests] are in the
    rewrite database of that name. *)
Ltac requests_norm :=
  autorewrite with requests; cbn [requests app]; autorewrite with requests.

(** From the [pass_md5] request on: whatever the answer, the program
    requests nothing further.  The database [runs] holds the equation of
    the random loop. *)
Ltac finish_requests w st passUrl :=
  destruct (fetch_settles w (S (fetches st)) passUrl) as [r2 | e2 |]; cbn;
  [ destruct (ok r2); cbn;
    [ destruct (text r2) as [body | e2]; cbn;
      [ destruct (truthy (Some (trim body))); cbn;
        [ autorewrite with runs; cbn | ]
      | ]
    | ]
  | | ];
  now requests_norm.

Create Rewrite HintDb events.

(** Split a run into its cases: how each request settles, whether the
    patterns match, what the [URL] constructor says. *)
Ltac explore :=
  repeat first
    [ progress cbn
    | progress autorewrite with runs
    | match goal with
      | |- context [truthy (Some ?s)] => destruct (truthy (Some s)) eqn:?
      | |- context [fetch_settles ?w ?n ?u] =>
          destruct (fetch_settles w n u) as [? | ? |] eqn:?
      | |- context [ok ?r] => destruct (ok r) eqn:?
      | |- context [text ?r] => destruct (text r) as [? | ?] eqn:?
      | |- context [_extractData ?p ?c] => destruct (_extractData p c) as [? |] eqn:?
      | |- context [startsWith ?s ?p] => destruct (startsWith s p) eqn:?
      | |- context [URL_ctor ?w ?i ?b] => destruct (URL_ctor w i b) as [? |] eqn:?
      end ].

(** Bring what was read off a computed trace into the form
    [f (trace st) ++ new]; the lemmas are in the database [events]. *)
Ltac events_norm :=
  autorewrite with events; cbn [fetched armed reported app];
  autorewrite with events.

(** Choose the case of a disjunction that the hypotheses prove. *)
Ltac pick :=
  solve [ repeat first [ left; solve [eauto 6] | right ]; eauto 6 ].

(** ** Strings *)

Lemma append_assoc (a b c : string) : (a ++ b) ++ c = a ++ (b ++ c).
Proof. induction a as [| x a IH]; simpl; [reflexivity | now rewrite IH]. Qed.

Lemma append_empty_r (a : string) : a ++ "" = a.
Proof. induction a as [| x a IH]; simpl; [reflexivity | now rewrite IH]. Qed.

Lemma length_append (a b : string) :
  String.length (a ++ b) = (String.length a + String.length b)%nat.
Proof. induction a as [| x a IH]; simpl; [reflexivity | now rewrite IH]. Qed.

Lemma forallb_append (p : ascii -> bool) (a b : string) :
  JSString.forallb p (a ++ b) = JSString.forallb p a && JSString.forallb p b.
Proof.
  induction a as [| x a IH]; simpl; [reflexivity |].
  rewrite IH. now rewrite andb_assoc.
Qed.

Lemma append_inv_head (a x y : string) : a ++ x = a ++ y -> x = y.
Proof.
  induction a as [| c a IH]; simpl; intros H; [exact H |].
  injection H as H. now apply IH.
Qed.

Lemma truthy_iff (s : string) : truthy (Some s) = true <-> s <> "".
Proof. destruct s; simpl; split; congruence. Qed.

(** Two concatenations that agree and whose heads have the same length
    agree part by part. *)
Lemma append_inv_length (a b x y : string) :
  String.length a = String.length b -> a ++ x = b ++ y -> a = b /\ x = y.
Proof.
  revert b. induction a as [| c a IH]; intros [| d b] Hlen H; simpl in *;
    try discriminate.
  - now split.
  - injection H as Hc H. injection Hlen as Hlen.
    destruct (IH b Hlen H) as [-> ->]. now subst.
Qed.

(** ** Numbers as strings *)

Lemma string_of_uint_digits (d : Decimal.uint) :
  JSString.forallb is_digit (NilEmpty.string_of_uint d) = true.
Proof. induction d; simpl; auto. Qed.

(** A number that is not negative is written with digits only. *)
Lemma Number_toString_digits (n : Z) :
  0 <= n ->
  JSString.forallb is_digit (Number_toString n) = true /\ Number_toString n <> "".
Proof.
  intros Hn. unfold Number_toString. destruct n as [| p | p]; [| | lia].
  - split; [reflexivity | discriminate].
  - simpl. pose proof (DecimalPos.Unsigned.to_uint_nonnil p) as Hnil.
    destruct (Pos.to_uint p) eqn:E; try congruence;
      (split; [apply (string_of_uint_digits (_ u)) | discriminate]).
Qed.

Lemma to_int_not_nil (n : Z) :
  Z.to_int n <> Decimal.Pos Decimal.Nil /\ Z.to_int n <> Decimal.Neg Decimal.Nil.
Proof.
  destruct n as [| p | p]; simpl; split; try discriminate;
    intros [= H]; now apply (DecimalPos.Unsigned.to_uint_nonnil p).
Qed.

(** Different numbers are written differently. *)
Lemma Number_toString_inj (a b : Z) :
  Number_toString a = Number_toString b -> a = b.
Proof.
  unfold Number_toString. intros H.
  apply DecimalZ.to_int_inj.
  destruct (to_int_not_nil a) as [Ha1 Ha2], (to_int_not_nil b) as [Hb1 Hb2].
  pose proof (NilZero.isi _ Ha1 Ha2) as Ia.
  pose proof (NilZero.isi _ Hb1 Hb2) as Ib.
  rewrite H in Ia. congruence.
Qed.

(** ** What a pattern captures *)

Lemma star_nonempty cs cap (k : string -> option string) :
  (forall s r, k s = Some r -> r <> "") ->
  forall s r, star cs cap k s = Some r -> r <> "".
Proof.
  intros Hk. induction s as [| c s IH]; simpl; intros r H.
  - now apply Hk in H.
  - destruct (mem cs c); [| now apply Hk in H].
    destruct (star cs cap k s) as [r' |] eqn:E; [| now apply Hk in H].
    injection H as <-. specialize (IH r' eq_refl).
    destruct cap; simpl; [discriminate | exact IH].
Qed.

Lemma match_here_nonempty p :
  forall cap s r,
    must_capture p cap = true -> match_here p cap s = Some r -> r <> "".
Proof.
  induction p as [| i p IH]; intros cap s r Hm H; simpl in *; [discriminate |].
  destruct i as [cs | cs | |].
  - destruct s as [| c s]; [discriminate |].
    destruct (mem cs c); [| discriminate].
    destruct (match_here p cap s) as [r' |] eqn:E; [| discriminate].
    injection H as <-. destruct cap; simpl in *; [discriminate |].
    now apply (IH false s).
  - revert H. apply star_nonempty. intros s' r'. now apply IH.
  - now apply (IH true s).
  - now apply (IH false s).
Qed.

Lemma exec_nonempty p s r :
  must_capture p false = true -> exec p s = Some r -> r <> "".
Proof.
  intros Hm. induction s as [| c s IH]; simpl.
  - destruct (match_here p false "") eqn:E; [| discriminate].
    intros [= <-]. now apply (match_here_nonempty p false "").
  - destruct (match_here p false (String c s)) eqn:E; [| exact IH].
    intros [= <-]. now apply (match_here_nonempty p false (String c s)).
Qed.

Lemma extractData_truthy p s r :
  must_capture p false = true -> _extractData p s = Some r -> truthy (Some r) = true.
Proof.
  unfold _extractData. intros Hm H. apply truthy_iff.
  destruct (exec p s) eqn:E; [| discriminate].
  injection H as <-. now apply (exec_nonempty p s).
Qed.

(** Both patterns of the source capture at least one character, so what
    they extract is never falsy. *)
Lemma fragment_truthy content fragment :
  _extractData PASS_MD5_PATTERN content = Some fragment ->
  truthy (Some fragment) = true.
Proof. now apply extractData_truthy. Qed.

Lemma token_truthy content token :
  _extractData TOKEN_PATTERN content = Some token ->
  truthy (Some token) = true.
Proof. now apply extractData_truthy. Qed.

(** ** Rounding: the index [Math.floor(Math.random() * 62)] *)

Import Double.

Section Rounding.

Lemma spacing_pos : 0 < spacing.
Proof. unfold spacing. apply Z.pow_pos_nonneg; lia. Qed.

Lemma scale_spacing : scale = 2 ^ 53 * spacing.
Proof. unfold scale, spacing. rewrite <- Z.pow_add_r by lia. reflexivity. Qed.

Lemma pow_spacing k : 0 <= k -> 2 ^ (1021 + k) = 2 ^ k * spacing.
Proof. intros. unfold spacing. rewrite Z.pow_add_r by lia. lia. Qed.

(** From 2^53 on, rounding gives a multiple of the spacing at [n]: the
    one below [n], or the one above when the remainder is at least half
    the spacing. *)
Lemma round53_cases n :
  2 ^ 53 <= n ->
  let s := Z.log2 n - 52 in
  1 <= s /\
  (round53 n = (n / 2 ^ s) * 2 ^ s \/
   (round53 n = (n / 2 ^ s + 1) * 2 ^ s /\ 2 ^ (s - 1) <= n mod 2 ^ s)).
Proof.
  intros Hn s.
  assert (Hs : 1 <= s).
  { unfold s. assert (53 <= Z.log2 n); [| lia].
    apply Z.log2_le_pow2; lia. }
  split; [exact Hs |].
  unfold round53, precision. destruct (Z.ltb_spec n (2 ^ 53)); [lia |].
  replace (53 - 1) with 52 by lia. fold s.
  destruct (Z.ltb_spec (2 ^ (s - 1)) (n mod 2 ^ s)); cbn [orb].
  - right. split; [reflexivity | lia].
  - destruct (Z.eqb_spec (2 ^ (s - 1)) (n mod 2 ^ s)); cbn [andb].
    + destruct (Z.odd (n / 2 ^ s)).
      * right. split; [reflexivity | lia].
      * left. reflexivity.
    + left. reflexivity.
Qed.

(** A number below 1 is at most 1 - 2^-53. *)
Lemma unit_interval_top n :
  unit_interval n = true -> 0 <= n <= scale - spacing.
Proof.
  unfold unit_interval. intros H.
  apply andb_prop in H. destruct H as [H Hr].
  apply andb_prop in H. destruct H as [H0 H1].
  apply Z.leb_le in H0. apply Z.ltb_lt in H1. apply Z.eqb_eq in Hr.
  split; [exact H0 |].
  pose proof spacing_pos as HT. rewrite scale_spacing in *.
  destruct (Z.lt_ge_cases n (2 ^ 53)) as [Hsmall | Hbig]; [nia |].
  destruct (Z.lt_ge_cases n (2 ^ 1073)) as [Hlow | Hhigh].
  - replace 1073 with (1021 + 52) in Hlow by lia.
    rewrite pow_spacing in Hlow by lia. lia.
  - assert (Hlog : Z.log2 n = 1073).
    { apply Z.log2_unique; [lia |]. split; [exact Hhigh |].
      replace (Z.succ 1073) with (1021 + 53) by lia. rewrite pow_spacing by lia. exact H1. }
    destruct (round53_cases n Hbig) as [_ Hc]. cbv zeta in Hc.
    rewrite Hlog in Hc. replace (1073 - 52) with (1021 + 0) in Hc by lia.
    rewrite pow_spacing in Hc by lia. replace (2 ^ 0 * spacing) with spacing in Hc by lia.
    rewrite Hr in Hc.
    destruct Hc as [Hc | [Hc _]].
    + assert (n / spacing < 2 ^ 53) by nia. nia.
    + assert (n / spacing + 1 < 2 ^ 53) by nia. nia.
Qed.

Lemma round53_nonneg n : 0 <= n -> 0 <= round53 n.
Proof.
  intros Hn. destruct (Z.lt_ge_cases n (2 ^ 53)) as [Hsmall | Hbig].
  - unfold round53, precision. destruct (Z.ltb_spec n (2 ^ 53)); lia.
  - destruct (round53_cases n Hbig) as [Hs Hc]. cbv zeta in Hc.
    set (s := Z.log2 n - 52) in *.
    assert (0 < 2 ^ s) by (apply Z.pow_pos_nonneg; lia).
    assert (0 <= n / 2 ^ s) by (apply Z.div_pos; lia).
    destruct Hc as [Hc | [Hc _]]; rewrite Hc; nia.
Qed.

(** The rounded product with 62 stays below 62. *)
Lemma round53_times_62 n :
  0 <= n <= scale - spacing -> round53 (n * 62) < 62 * scale.
Proof.
  intros [H0 H1]. pose proof spacing_pos as HT. rewrite scale_spacing in *.
  set (p := n * 62).
  destruct (Z.lt_ge_cases p (2 ^ 53)) as [Hsmall | Hbig].
  - unfold round53, precision. destruct (Z.ltb_spec p (2 ^ 53)); nia.
  - destruct (round53_cases p Hbig) as [Hs Hc]. cbv zeta in Hc.
    set (s := Z.log2 p - 52) in *.
    assert (Hpow : 0 < 2 ^ s) by (apply Z.pow_pos_nonneg; lia).
    pose proof (Z.div_mod p (2 ^ s) ltac:(lia)) as Hdm.
    pose proof (Z.mod_pos_bound p (2 ^ s) Hpow) as Hmod.
    destruct Hc as [Hc | [Hc Hhalf]]; rewrite Hc; [nia |].
    destruct (Z.lt_ge_cases p (2 ^ 1079)) as [Hlow | Hhigh].
    + (* the spacing is at most 32 spacing *)
      assert (Hlog : Z.log2 p < 1079) by (apply Z.log2_lt_pow2; lia).
      assert (Hsp : 2 ^ s <= 2 ^ 1026) by (apply Z.pow_le_mono_r; lia).
      replace 1079 with (1021 + 58) in Hlow by lia. rewrite pow_spacing in Hlow by lia.
      replace 1026 with (1021 + 5) in Hsp by lia. rewrite pow_spacing in Hsp by lia.
      nia.
    + (* the spacing is 64 spacing and the remainder is below half of it *)
      assert (Hlog : Z.log2 p = 1079).
      { apply Z.log2_unique; [lia |]. split; [exact Hhigh |].
        replace (Z.succ 1079) with (1021 + 59) by lia. rewrite pow_spacing by lia.
        unfold p. nia. }
      assert (Hs' : s = 1021 + 6) by (unfold s; lia).
      rewrite Hs' in *. replace (1021 + 6 - 1) with (1021 + 5) in Hhalf by lia.
      rewrite !pow_spacing in * by lia.
      unfold p in *. nia.
Qed.

(** The index is one of the 62 positions of the alphabet, although the
    product is rounded before the floor is taken. *)
Lemma floor_mul_62 n :
  unit_interval n = true -> 0 <= floor_mul n 62 < 62.
Proof.
  intros H. apply unit_interval_top in H.
  pose proof (round53_times_62 n H) as Hlt.
  pose proof (round53_nonneg (n * 62) ltac:(lia)) as Hge.
  assert (Hsc : 0 < scale) by (unfold scale; apply Z.pow_pos_nonneg; lia).
  unfold floor_mul. split.
  - apply Z.div_pos; lia.
  - apply Z.div_lt_upper_bound; lia.
Qed.

End Rounding.

(** ** The random suffix *)

Lemma alphabet_alnum (k : nat) :
  (k < 62)%nat ->
  exists c, charAt RANDOM_STRING_CHARS (Z.of_nat k) = String c "" /\ is_alnum c = true.
Proof.
  intros Hk.
  assert (Hall : List.forallb
                   (fun i => match charAt RANDOM_STRING_CHARS (Z.of_nat i) with
                             | String c EmptyString => is_alnum c
                             | _ => false
                             end) (List.seq 0 62) = true) by (vm_compute; reflexivity).
  rewrite forallb_forall in Hall.
  specialize (Hall k ltac:(apply in_seq; lia)).
  destruct (charAt RANDOM_STRING_CHARS (Z.of_nat k)) as [| c [| d s]];
    try discriminate.
  now exists c.
Qed.

Lemma random_char_alnum (x : Z) :
  unit_interval x = true ->
  exists c, random_char x = String c "" /\ is_alnum c = true.
Proof.
  intros Hx. unfold random_char.
  change (Z.of_nat (String.length RANDOM_STRING_CHARS)) with 62.
  pose proof (floor_mul_62 x Hx) as Hi.
  rewrite <- (Z2Nat.id (floor_mul x 62)) by lia.
  apply alphabet_alnum. lia.
Qed.

(** The loop appends [n] letters or digits. *)
Lemma drawn_alnum (w : World) (n k : nat) :
  random_in_unit_interval w ->
  String.length (drawn w n k) = n /\ JSString.forallb is_alnum (drawn w n k) = true.
Proof.
  intros Hw. revert k. induction n as [| n IH]; intros k; simpl; [now split |].
  destruct (random_char_alnum _ (Hw k)) as [c [-> Hc]].
  destruct (IH (S k)) as [Hlen Hal]. simpl. rewrite Hlen, Hc, Hal. now split.
Qed.

Lemma random_chars_run (w : World) (n : nat) :
  forall result st,
    random_chars w n result st = (Normal (result ++ drawn w n (randoms st)), drew n st).
Proof.
  induction n as [| n IH]; intros result st.
  - simpl. unfold ret, drew. simpl. rewrite append_empty_r, app_nil_r.
    now destruct st.
  - cbn [random_chars drawn]. unfold bind at 1. unfold random at 1.
    rewrite IH. unfold drew, emit. cbn [fetches randoms clocks next_timer timers trace].
    rewrite append_assoc, <- app_assoc, Nat.add_succ_r. reflexivity.
Qed.

Lemma generateRandomString_run (w : World) (st : State) :
  _generateRandomString w 10 st = (Normal (drawn w 10 (randoms st)), drew 10 st).
Proof. unfold _generateRandomString. now rewrite random_chars_run. Qed.

(** ** Computing runs

    From here on the leaves of the model are kept folded while a run is
    computed, so that the facts about them can be used by rewriting. *)

#[local] Arguments exec : simpl never.
#[local] Arguments _extractData : simpl never.
#[local] Arguments trim : simpl never.
#[local] Arguments Number_toString : simpl never.
#[local] Arguments String.append : simpl never.
#[local] Arguments startsWith : simpl never.
#[local] Arguments truthy : simpl never.
#[local] Arguments _generateRandomString : simpl never.
#[local] Arguments drawn : simpl never.
#[local] Arguments Z.div : simpl never.
#[local] Arguments PASS_MD5_PATTERN : simpl never.
#[local] Arguments TOKEN_PATTERN : simpl never.
#[local] Arguments DOODSTREAM_BASE_URL : simpl never.

(** ** More on strings *)

Lemma trimEnd_blank s : trimEnd s = "" <-> JSString.forallb is_white s = true.
Proof.
  induction s as [| c s IH]; simpl; [tauto |].
  destruct (trimEnd s) eqn:E.
  - destruct (is_white c); simpl.
    + split; intros _; [now apply IH | reflexivity].
    + split; discriminate.
  - split; [discriminate |]. intros H. apply andb_prop in H. destruct H as [_ H].
    apply IH in H. discriminate.
Qed.

Lemma trimStart_white s :
  JSString.forallb is_white (trimStart s) = JSString.forallb is_white s.
Proof.
  induction s as [| c s IH]; simpl; [reflexivity |].
  destruct (is_white c) eqn:E; simpl; [exact IH | now rewrite E].
Qed.

(** Trimming leaves nothing exactly when the string is empty or all
    white space. *)
Lemma trim_blank s : trim s = "" <-> JSString.forallb is_white s = true.
Proof. unfold trim. rewrite trimEnd_blank. now rewrite trimStart_white. Qed.

Lemma split_not_nil sep s : split sep s <> [].
Proof.
  destruct s as [| c s]; simpl; [discriminate |].
  destruct (Ascii.eqb c sep); [discriminate |].
  destruct (split sep s); discriminate.
Qed.

(** The element at index [length - 1] is the last one. *)
Lemma last_element (l : list string) :
  l <> [] ->
  array_get l (Z.of_nat (List.length l) - 1) = Some (List.last l "").
Proof.
  intros Hl. unfold array_get.
  destruct l as [| x l]; [congruence |].
  destruct (Z.ltb_spec (Z.of_nat (List.length (x :: l)) - 1) 0) as [H | _].
  - cbn [List.length] in H. lia.
  - replace (Z.to_nat (Z.of_nat (List.length (x :: l)) - 1)) with (List.length l)
      by (cbn [List.length]; lia).
    clear Hl. revert x. induction l as [| y l IH]; intros x; [reflexivity |].
    cbn [List.length nth_error]. rewrite IH. reflexivity.
Qed.

(** The [fileId] of [getMetadata], read off the pathname. *)
Lemma fileId_is_last_segment path :
  or_else (array_get (split "/" path) (Z.of_nat (List.length (split "/" path)) - 1)) "video"
  = last_segment_or_video path.
Proof.
  rewrite last_element by apply split_not_nil.
  unfold last_segment_or_video, or_else.
  now destruct (List.last (split "/" path) "").
Qed.

(** ** Runs of the whole program *)

Lemma resolved_target w fragment passUrl :
  pass_md5_target w fragment = Some passUrl ->
  (startsWith fragment "http" = true /\ passUrl = fragment) \/
  (startsWith fragment "http" = false /\
   exists u, URL_ctor w fragment (Some DOODSTREAM_BASE_URL) = Some u /\ href u = passUrl).
Proof.
  unfold pass_md5_target. destruct (startsWith fragment "http").
  - intros [= <-]. now left.
  - destruct (URL_ctor w fragment (Some DOODSTREAM_BASE_URL)) as [u |]; [| discriminate].
    intros [= <-]. right. eauto.
Qed.

(** The link of a run in which everything is served. *)
Lemma getDirectLink_run w st url token videoBaseUrl :
  url <> "" ->
  resolvable w st url token videoBaseUrl ->
  fst (getDirectLink w (Str url) st) =
  Normal (videoBaseUrl ++ drawn w 10 (randoms st) ++ "?token=" ++ token
            ++ "&expiry=" ++ Number_toString (Date_now w (clocks st) / 1000)).
Proof.
  intros Hurl (content & fragment & passUrl & body & Hpage & Hfrag & Htok & Htarget
               & Hanswer & Htrim & Hbase).
  destruct Hpage as (r1 & Hf1 & Hok1 & Ht1), Hanswer as (r2 & Hf2 & Hok2 & Ht2).
  apply truthy_iff in Hurl, Hbase. rewrite <- Htrim in *.
  pose proof (fragment_truthy _ _ Hfrag) as Hfragment.
  pose proof (token_truthy _ _ Htok) as Htoken.
  unfold_js. step Hurl. step Hf1. step Hok1. step Ht1. step Hfrag. step Hfragment.
  destruct (resolved_target _ _ _ Htarget) as [[Hs ->] | [Hs (u & Hu & <-)]].
  - step Hs. step Htok. step Htoken. step Hf2. step Hok2. step Ht2. step Hbase.
    rewrite generateRandomString_run. cbn. reflexivity.
  - step Hs. step Hu. step Htok. step Htoken. step Hf2. step Hok2. step Ht2. step Hbase.
    rewrite generateRandomString_run. cbn. reflexivity.
Qed.

Lemma requests_app (a b : list Event) : requests (a ++ b) = (requests a ++ requests b)%list.
Proof.
  induction a as [| e a IH]; simpl; [reflexivity |].
  destruct e; simpl; now rewrite IH.
Qed.

Lemma requests_random (n : nat) : requests (List.repeat EvRandom n) = [].
Proof. induction n; simpl; auto. Qed.

#[local] Hint Rewrite requests_app requests_random app_nil_r : requests.
#[local] Hint Rewrite <- app_assoc : requests.
#[local] Hint Rewrite generateRandomString_run : runs.

(** Once the page is served and both patterns match, exactly two requests
    are made, however the second one ends. *)
Lemma requests_through_answer w st url content fragment token passUrl :
  url <> "" ->
  served w (fetches st) url content ->
  _extractData PASS_MD5_PATTERN content = Some fragment ->
  _extractData TOKEN_PATTERN content = Some token ->
  pass_md5_target w fragment = Some passUrl ->
  requests (trace (snd (getDirectLink w (Str url) st)))
  = (requests (trace st) ++ [url; passUrl])%list.
Proof.
  intros Hurl (r1 & Hf1 & Hok1 & Ht1) Hfrag Htok Htarget.
  apply truthy_iff in Hurl.
  pose proof (fragment_truthy _ _ Hfrag) as Hfragment.
  pose proof (token_truthy _ _ Htok) as Htoken.
  unfold_js. step Hurl. step Hf1. step Hok1. step Ht1. step Hfrag. step Hfragment.
  destruct (resolved_target _ _ _ Htarget) as [[Hs ->] | [Hs (u & Hu & <-)]].
  - step Hs. step Htok. step Htoken. finish_requests w st fragment.
  - step Hs. step Hu. step Htok. step Htoken. finish_requests w st (href u).
Qed.

(** A fragment that the [URL] constructor rejects ends the run with its
    [TypeError], before the token is looked for and before any second
    request. *)
Lemma invalid_fragment_stops w st url content fragment :
  url <> "" ->
  served w (fetches st) url content ->
  _extractData PASS_MD5_PATTERN content = Some fragment ->
  startsWith fragment "http" = false ->
  URL_ctor w fragment (Some DOODSTREAM_BASE_URL) = None ->
  fst (getDirectLink w (Str url) st) = Throw (TypeError "Invalid URL")
  /\ requests (trace (snd (getDirectLink w (Str url) st)))
     = (requests (trace st) ++ [url])%list.
Proof.
  intros Hurl (r1 & Hf1 & Hok1 & Ht1) Hfrag Hs Hu.
  apply truthy_iff in Hurl.
  pose proof (fragment_truthy _ _ Hfrag) as Hfragment.
  unfold_js. step Hurl. step Hf1. step Hok1. step Ht1. step Hfrag. step Hfragment.
  step Hs. step Hu. split; [reflexivity | now requests_norm].
Qed.

(** A fragment that does not start with [http] is handed to the [URL]
    constructor together with the service origin, and the second request
    goes to the [href] of what the constructor returns. *)
Lemma other_fragment_goes_through_URL w st url content fragment token u :
  url <> "" ->
  served w (fetches st) url content ->
  _extractData PASS_MD5_PATTERN content = Some fragment ->
  _extractData TOKEN_PATTERN content = Some token ->
  startsWith fragment "http" = false ->
  URL_ctor w fragment (Some DOODSTREAM_BASE_URL) = Some u ->
  requests (trace (snd (getDirectLink w (Str url) st)))
  = (requests (trace st) ++ [url; href u])%list.
Proof.
  intros Hurl Hpage Hfrag Htok Hs Hu.
  apply (requests_through_answer w st url content fragment token); auto.
  unfold pass_md5_target. now rewrite Hs, Hu.
Qed.

(** A URL rooted at the service origin opens with the scheme [https]. *)
Lemma rooted_has_scheme s :
  Spec.rooted_at_origin s = true -> URLStandard.has_scheme s = true.
Proof.
  unfold Spec.rooted_at_origin.
  change (DOODSTREAM_BASE_URL ++ "/") with "https://dood.li/".
  intros H. apply prefix_correct in H. cbn [String.length] in H.
  do 6 (destruct s as [| ? s]; [discriminate |];
        cbn [substring] in H; injection H as -> H).
  now destruct s.
Qed.

(** Every way a request ends other than a rejection (an answer, whatever
    its status, and a stall that the timer ends) leaves the timer of the
    request disarmed. *)
Lemma settled_otherwise_disarms w st url headers :
  (forall e, fetch_settles w (fetches st) url <> Rejects e) ->
  ~ In (next_timer st) (timers (snd (_makeRequest w url headers st))).
Proof.
  intros Hf.
  assert (Hgone : forall l, ~ In (next_timer st)
                              (List.filter (fun t => negb (Nat.eqb t (next_timer st))) l)).
  { intros l Hin. apply filter_In in Hin. destruct Hin as [_ Hin].
    now rewrite Nat.eqb_refl in Hin. }
  unfold_js. cbn.
  destruct (fetch_settles w (fetches st) url) as [r | e |] eqn:E; cbn.
  - destruct (ok r); cbn; rewrite Nat.eqb_refl; cbn; apply Hgone.
  - now destruct (Hf e).
  - rewrite Nat.eqb_refl; cbn; apply Hgone.
Qed.

(** A request that stalls is ended by the timer and fails as a timeout. *)
Lemma stalled_request_times_out w st url headers :
  fetch_settles w (fetches st) url = Stalls ->
  fst (_makeRequest w url headers st) = Throw Spec.Timeout.
Proof. intros Hf. unfold_js. cbn. step Hf. reflexivity. Qed.

(** ** The concrete worlds *)

(** Every input that a run of this file hands to the [URL] constructor
    of a concrete world is covered by the reference: the fragments of the
    example pages against the service origin, and the embed URLs on their
    own. *)
Lemma constructor_inputs_covered :
  List.forallb (fun q => URLStandard.covered (fst q) (snd q))
    [ ("/pass_md5/xyz", Some DOODSTREAM_BASE_URL);
      ("//:80/pass_md5/xyz", Some DOODSTREAM_BASE_URL);
      (Examples.embed, None);
      (Examples.embed_slash, None);
      ("e/abc123", None) ]
  = true.
Proof. vm_compute. reflexivity. Qed.

(** The fragment of the ordinary page is resolved against the service
    origin before it is requested. *)
Lemma example_fragment_is_resolved :
  requests (trace (snd (getDirectLink Examples.w_ok (Str Examples.embed) initial)))
  = [Examples.embed; "https://dood.li/pass_md5/xyz"].
Proof.
  apply (other_fragment_goes_through_URL Examples.w_ok initial Examples.embed
           (Examples.page "/pass_md5/xyz") "/pass_md5/xyz" "tk9abc"
           (mkURL "https://dood.li/pass_md5/xyz" "/pass_md5/xyz")).
  - discriminate.
  - served_here.
  - vm_compute. reflexivity.
  - vm_compute. reflexivity.
  - vm_compute. reflexivity.
  - vm_compute. reflexivity.
Qed.

Lemma periodic_in_unit_interval (n : nat) :
  unit_interval (Examples.periodic n) = true.
Proof.
  unfold Examples.periodic.
  pose proof (Nat.mod_upper_bound n 10 ltac:(lia)) as H.
  assert (Hall : List.forallb
                   (fun k => unit_interval ((6 * Z.of_nat k + 1) * 2 ^ 1068))
                   (List.seq 0 10) = true) by (vm_compute; reflexivity).
  rewrite forallb_forall in Hall. apply Hall. apply in_seq. lia.
Qed.

Lemma example_worlds_random (table : list (string * Settlement)) :
  random_in_unit_interval (Examples.world table).
Proof. intros n. apply periodic_in_unit_interval. Qed.

Lemma w_ok_resolvable :
  resolvable Examples.w_ok initial Examples.embed "tk9abc" Examples.video_base.
Proof.
  exists (Examples.page "/pass_md5/xyz"), "/pass_md5/xyz",
    "https://dood.li/pass_md5/xyz", (" " ++ Examples.video_base ++ String "010" "").
  split; [served_here |].
  split; [vm_compute; reflexivity |].
  split; [vm_compute; reflexivity |].
  split; [vm_compute; reflexivity |].
  split; [served_here |].
  split; [vm_compute; reflexivity | discriminate].
Qed.

Lemma w_ok_resolvable_again :
  resolvable Examples.w_ok
             (snd (getDirectLink Examples.w_ok (Str Examples.embed) initial))
             Examples.embed "tk9abc" Examples.video_base.
Proof.
  exists (Examples.page "/pass_md5/xyz"), "/pass_md5/xyz",
    "https://dood.li/pass_md5/xyz", (" " ++ Examples.video_base ++ String "010" "").
  split; [served_here |].
  split; [vm_compute; reflexivity |].
  split; [vm_compute; reflexivity |].
  split; [vm_compute; reflexivity |].
  split; [served_here |].
  split; [vm_compute; reflexivity | discriminate].
Qed.

(** * The claims *)

(** ** C1: the link that [getDirectLink] returns *)

(** C1.  For every non-empty embed URL whose page is served and matches
    both patterns, and whose [pass_md5] request is served a non-blank body,
    [getDirectLink] returns the trimmed body, then a suffix [r], then
    [?token=], the token, [&expiry=] and the clock reading divided by 1000
    and rounded down.  The suffix has exactly 10 characters, each a letter
    or a digit, given that [Math.random] keeps to the interval from 0 to 1;
    the expiry is a non-empty string of digits when the clock does not
    stand before the epoch. *)
Theorem getDirectLink_builds_link w st url token videoBaseUrl :
  url <> "" ->
  resolvable w st url token videoBaseUrl ->
  random_in_unit_interval w ->
  exists r,
    fst (getDirectLink w (Str url) st) =
    Normal (videoBaseUrl ++ r ++ "?token=" ++ token ++ "&expiry="
              ++ Number_toString (Date_now w (clocks st) / 1000))
    /\ String.length r = 10%nat
    /\ JSString.forallb is_alnum r = true
    /\ (0 <= Date_now w (clocks st) ->
        JSString.forallb is_digit (Number_toString (Date_now w (clocks st) / 1000)) = true
        /\ Number_toString (Date_now w (clocks st) / 1000) <> "").
Proof.
  intros Hurl Hres Hrand.
  exists (drawn w 10 (randoms st)).
  destruct (drawn_alnum w 10 (randoms st) Hrand) as [Hlen Hal].
  repeat split; try assumption.
  - now apply getDirectLink_run.
  - apply Number_toString_digits. apply Z.div_pos; lia.
  - apply Number_toString_digits. apply Z.div_pos; lia.
Qed.

(** C1 on the world [w_ok]. *)
Lemma getDirectLink_builds_link_witness :
  exists r,
    fst (getDirectLink Examples.w_ok (Str Examples.embed) initial) =
    Normal (Examples.video_base ++ r ++ "?token=" ++ "tk9abc" ++ "&expiry="
              ++ Number_toString (Date_now Examples.w_ok (clocks initial) / 1000))
    /\ String.length r = 10%nat
    /\ JSString.forallb is_alnum r = true
    /\ (0 <= Date_now Examples.w_ok (clocks initial) ->
        JSString.forallb is_digit
          (Number_toString (Date_now Examples.w_ok (clocks initial) / 1000)) = true
        /\ Number_toString (Date_now Examples.w_ok (clocks initial) / 1000) <> "").
Proof.
  apply (getDirectLink_builds_link Examples.w_ok initial Examples.embed "tk9abc"
           Examples.video_base).
  - discriminate.
  - exact w_ok_resolvable.
  - apply example_worlds_random.
Defined.

(** ** C2: empty input *)

(** C2.  On the empty string, on [null] and on an absent argument,
    [getDirectLink] fails with [InvalidInput] and leaves the state of the
    host as it was: nothing is requested, nothing is logged. *)
Theorem getDirectLink_rejects_empty w st :
  getDirectLink w (Str "") st = (Throw Spec.InvalidInput, st)
  /\ getDirectLink w Null st = (Throw Spec.InvalidInput, st)
  /\ getDirectLink w Undefined st = (Throw Spec.InvalidInput, st).
Proof. repeat split. Qed.

(** ** C3: a page without a token *)

(** C3, as amended.  For every served page that matches the [pass_md5]
    pattern with a fragment that starts with [http] or that the [URL]
    constructor accepts against the service origin, and that does not match
    the token pattern, [getDirectLink] fails with the [ExtractionError] that
    names the token and the embed URL, and the embed URL is the only
    request: the [pass_md5] URL is never requested. *)
Theorem token_missing w st url content fragment passUrl :
  url <> "" ->
  served w (fetches st) url content ->
  _extractData PASS_MD5_PATTERN content = Some fragment ->
  pass_md5_target w fragment = Some passUrl ->
  _extractData TOKEN_PATTERN content = None ->
  fst (getDirectLink w (Str url) st) = Throw (Spec.ExtractionError Spec.token url)
  /\ requests (trace (snd (getDirectLink w (Str url) st))) = (requests (trace st) ++ [url])%list
  /\ fetches (snd (getDirectLink w (Str url) st)) = S (fetches st).
Proof.
  intros Hurl (r1 & Hf1 & Hok1 & Ht1) Hfrag Htarget Htok.
  apply truthy_iff in Hurl.
  pose proof (fragment_truthy _ _ Hfrag) as Hfragment.
  unfold_js. step Hurl. step Hf1. step Hok1. step Ht1. step Hfrag. step Hfragment.
  destruct (resolved_target _ _ _ Htarget) as [[Hs ->] | [Hs (u & Hu & <-)]].
  - step Hs. step Htok. repeat split. now requests_norm.
  - step Hs. step Hu. step Htok. repeat split. now requests_norm.
Qed.

(** C3, as amended, on the world [w_no_token]. *)
Lemma token_missing_witness :
  fst (getDirectLink Examples.w_no_token (Str Examples.embed) initial)
  = Throw (Spec.ExtractionError Spec.token Examples.embed)
  /\ requests (trace (snd (getDirectLink Examples.w_no_token (Str Examples.embed) initial)))
     = (requests (trace initial) ++ [Examples.embed])%list
  /\ fetches (snd (getDirectLink Examples.w_no_token (Str Examples.embed) initial))
     = S (fetches initial).
Proof.
  apply (token_missing Examples.w_no_token initial Examples.embed
           (Examples.page_without_token "/pass_md5/xyz") "/pass_md5/xyz"
           "https://dood.li/pass_md5/xyz").
  - discriminate.
  - served_here.
  - vm_compute; reflexivity.
  - vm_compute; reflexivity.
  - vm_compute; reflexivity.
Defined.

(** C3 as it stands fails.  The page of [w_bad_fragment] matches the
    [pass_md5] pattern and not the token pattern, but its fragment opens
    with two slashes and a colon, which is no URL: the constructor throws,
    and the failure is that [TypeError], not the [ExtractionError] of the
    token. *)
Lemma token_missing_counterexample :
  served Examples.w_bad_fragment (fetches initial) Examples.embed
         (Examples.page_without_token "//:80/pass_md5/xyz")
  /\ _extractData PASS_MD5_PATTERN (Examples.page_without_token "//:80/pass_md5/xyz")
     = Some "//:80/pass_md5/xyz"
  /\ _extractData TOKEN_PATTERN (Examples.page_without_token "//:80/pass_md5/xyz")
     = None
  /\ URLStandard.parse "//:80/pass_md5/xyz" (Some DOODSTREAM_BASE_URL)
     = URLStandard.Failure
  /\ fst (getDirectLink Examples.w_bad_fragment (Str Examples.embed) initial)
     = Throw (TypeError "Invalid URL")
  /\ fst (getDirectLink Examples.w_bad_fragment (Str Examples.embed) initial)
     <> Throw (Spec.ExtractionError Spec.token Examples.embed).
Proof.
  split; [served_here |].
  repeat (split; [vm_compute; reflexivity |]).
  vm_compute. discriminate.
Qed.

(** ** C4: a blank answer *)

(** C4.  For every [pass_md5] response whose body is empty or white space
    only, the program fails with [EmptyResponse], and the link builder is
    never reached: no random number is drawn and the clock is not read. *)
Theorem blank_answer_is_EmptyResponse w st url content fragment token passUrl body :
  url <> "" ->
  served w (fetches st) url content ->
  _extractData PASS_MD5_PATTERN content = Some fragment ->
  _extractData TOKEN_PATTERN content = Some token ->
  pass_md5_target w fragment = Some passUrl ->
  served w (S (fetches st)) passUrl body ->
  JSString.forallb is_white body = true ->
  fst (getDirectLink w (Str url) st) = Throw Spec.EmptyResponse
  /\ randoms (snd (getDirectLink w (Str url) st)) = randoms st
  /\ clocks (snd (getDirectLink w (Str url) st)) = clocks st.
Proof.
  intros Hurl (r1 & Hf1 & Hok1 & Ht1) Hfrag Htok Htarget (r2 & Hf2 & Hok2 & Ht2) Hblank.
  apply truthy_iff in Hurl. apply trim_blank in Hblank.
  pose proof (fragment_truthy _ _ Hfrag) as Hfragment.
  pose proof (token_truthy _ _ Htok) as Htoken.
  unfold_js. step Hurl. step Hf1. step Hok1. step Ht1. step Hfrag. step Hfragment.
  destruct (resolved_target _ _ _ Htarget) as [[Hs ->] | [Hs (u & Hu & <-)]].
  - step Hs. step Htok. step Htoken. step Hf2. step Hok2. step Ht2. step Hblank.
    repeat split.
  - step Hs. step Hu. step Htok. step Htoken. step Hf2. step Hok2. step Ht2. step Hblank.
    repeat split.
Qed.

(** C4 on the world [w_blank]. *)
Lemma blank_answer_is_EmptyResponse_witness :
  fst (getDirectLink Examples.w_blank (Str Examples.embed) initial) = Throw Spec.EmptyResponse
  /\ randoms (snd (getDirectLink Examples.w_blank (Str Examples.embed) initial)) = randoms initial
  /\ clocks (snd (getDirectLink Examples.w_blank (Str Examples.embed) initial)) = clocks initial.
Proof.
  apply (blank_answer_is_EmptyResponse Examples.w_blank initial Examples.embed
           (Examples.page "/pass_md5/xyz") "/pass_md5/xyz" "tk9abc"
           "https://dood.li/pass_md5/xyz" (String "032" (String "010" ""))).
  - discriminate.
  - served_here.
  - vm_compute; reflexivity.
  - vm_compute; reflexivity.
  - vm_compute; reflexivity.
  - served_here.
  - vm_compute; reflexivity.
Defined.

(** ** C5: which URL the fragment becomes *)

(** C5.  The program decides with [startsWith("http")] whether a fragment
    needs resolving.  A fragment that is a relative URL, one that opens
    with no scheme, but starts with the letters [http] is therefore taken
    for an absolute one: once the page is served and both patterns match,
    the second request goes to the fragment as it stands, which is not a
    URL rooted at the service origin. *)
Theorem relative_http_fragment_is_not_resolved w st url content fragment token :
  url <> "" ->
  served w (fetches st) url content ->
  _extractData PASS_MD5_PATTERN content = Some fragment ->
  _extractData TOKEN_PATTERN content = Some token ->
  Spec.relative fragment = true ->
  startsWith fragment "http" = true ->
  requests (trace (snd (getDirectLink w (Str url) st)))
  = (requests (trace st) ++ [url; fragment])%list
  /\ Spec.rooted_at_origin fragment = false.
Proof.
  intros Hurl Hpage Hfrag Htok Hrel Hs. split.
  - apply (requests_through_answer w st url content fragment token); auto.
    unfold pass_md5_target. now rewrite Hs.
  - destruct (Spec.rooted_at_origin fragment) eqn:E; [| reflexivity].
    apply rooted_has_scheme in E. unfold Spec.relative in Hrel.
    rewrite E in Hrel. discriminate.
Qed.

(** C5 on the fragment [httpdocs/pass_md5/xyz]: the path is requested as
    the page has it. *)
Lemma relative_http_fragment_is_not_resolved_witness :
  requests (trace (snd (getDirectLink Examples.w_httpdocs (Str Examples.embed) initial)))
  = (requests (trace initial) ++ [Examples.embed; "httpdocs/pass_md5/xyz"])%list
  /\ Spec.rooted_at_origin "httpdocs/pass_md5/xyz" = false.
Proof.
  apply (relative_http_fragment_is_not_resolved Examples.w_httpdocs initial
           Examples.embed (Examples.page "httpdocs/pass_md5/xyz")
           "httpdocs/pass_md5/xyz" "tk9abc"
           ltac:(discriminate) ltac:(served_here)
           ltac:(vm_compute; reflexivity) ltac:(vm_compute; reflexivity)
           ltac:(vm_compute; reflexivity) ltac:(vm_compute; reflexivity)).
Defined.

(** ** C6: the metadata *)

(** C6, as amended.  For every embed URL on which [getDirectLink] succeeds
    and which the [URL] constructor accepts, [getMetadata] returns the
    link, the name [doodstream_], then the last element of the pathname
    split at slashes or [video] when that element is empty, then [.mp4],
    the quality [Unknown], no size, and the request headers.  For the
    pathname [/e/abc123] the name is [doodstream_abc123.mp4]. *)
Theorem metadata_of_link w st url link u :
  fst (getDirectLink w (Str url) st) = Normal link ->
  URL_ctor w url None = Some u ->
  exists m,
    fst (getMetadata w (Str url) st) = Normal m
    /\ mp4 m = link
    /\ name m = "doodstream_" ++ last_segment_or_video (pathname u) ++ ".mp4"
    /\ quality m = "Unknown"
    /\ size m = None
    /\ headers m = _getHeaders
    /\ (pathname u = "/e/abc123" -> name m = "doodstream_abc123.mp4").
Proof.
  intros Hlink Hu.
  exists (mkMetadata link ("doodstream_" ++ last_segment_or_video (pathname u) ++ ".mp4")
                     "Unknown" None _getHeaders).
  split; [| repeat split].
  - unfold getMetadata, try_catch, bind, new_URL.
    destruct (getDirectLink w (Str url) st) as [res st1]. cbn [fst] in Hlink. subst res.
    rewrite Hu. cbn [ret fst]. now rewrite fileId_is_last_segment.
  - cbn [name pathname]. now intros ->.
Qed.

(** C6, as amended, on the embed URL of the specification. *)
Lemma metadata_of_link_witness :
  exists m,
    fst (getMetadata Examples.w_ok (Str Examples.embed) initial) = Normal m
    /\ mp4 m = "https://cdn.example/v/abc~AGMSYejpv1?token=tk9abc&expiry=1730000000"
    /\ name m = "doodstream_"
                  ++ last_segment_or_video (pathname (mkURL Examples.embed "/e/abc123"))
                  ++ ".mp4"
    /\ quality m = "Unknown"
    /\ size m = None
    /\ headers m = _getHeaders
    /\ (pathname (mkURL Examples.embed "/e/abc123") = "/e/abc123" ->
        name m = "doodstream_abc123.mp4").
Proof.
  apply (metadata_of_link Examples.w_ok initial Examples.embed
           "https://cdn.example/v/abc~AGMSYejpv1?token=tk9abc&expiry=1730000000"
           (mkURL Examples.embed "/e/abc123")).
  - vm_compute; reflexivity.
  - vm_compute; reflexivity.
Defined.

(** C6 as it stands fails.  On an embed URL that ends in a slash the last
    non-empty path segment is [abc123], but the name is
    [doodstream_video.mp4]: the program looks at the last segment only,
    and that one is empty. *)
Lemma metadata_of_link_counterexample :
  fst (getDirectLink Examples.w_ok (Str Examples.embed_slash) initial)
  = Normal "https://cdn.example/v/abc~AGMSYejpv1?token=tk9abc&expiry=1730000000"
  /\ URLStandard.parse Examples.embed_slash None
     = URLStandard.Parsed (mkURL Examples.embed_slash "/e/abc123/")
  /\ Spec.last_nonempty_segment "/e/abc123/" = Some "abc123"
  /\ exists m,
      fst (getMetadata Examples.w_ok (Str Examples.embed_slash) initial) = Normal m
      /\ name m = "doodstream_video.mp4"
      /\ name m <> Spec.file_name "/e/abc123/".
Proof.
  repeat (split; [vm_compute; reflexivity |]).
  eexists. split; [vm_compute; reflexivity |].
  split; [reflexivity | vm_compute; discriminate].
Qed.

(** ** C7: the timer of a request *)

(** C7, where the code departs from it.  When the fetch is rejected, the
    request fails with that rejection, the events of the request are the
    arming of the timer, the fetch and the log of the failure, with no
    clearing of the timer, and the timer of the request is still armed
    afterwards. *)
Theorem rejected_request_keeps_timer w st url headers e :
  fetch_settles w (fetches st) url = Rejects e ->
  fst (_makeRequest w url headers st) = Throw e
  /\ trace (snd (_makeRequest w url headers st))
     = (trace st ++ [EvSetTimeout (next_timer st) DEFAULT_REQUEST_TIMEOUT;
                     EvFetch url headers;
                     EvError ("Request failed for " ++ url ++ ":") e])%list
  /\ timers (snd (_makeRequest w url headers st)) = next_timer st :: timers st.
Proof.
  intros Hf. unfold_js. cbn. step Hf. repeat split.
  now rewrite <- !app_assoc.
Qed.

(** C7 on the world [w_offline]. *)
Lemma rejected_request_keeps_timer_witness :
  fst (_makeRequest Examples.w_offline Examples.embed _getHeaders initial)
  = Throw (TypeError "Failed to fetch")
  /\ trace (snd (_makeRequest Examples.w_offline Examples.embed _getHeaders initial))
     = (trace initial
          ++ [EvSetTimeout (next_timer initial) DEFAULT_REQUEST_TIMEOUT;
              EvFetch Examples.embed _getHeaders;
              EvError ("Request failed for " ++ Examples.embed ++ ":")
                      (TypeError "Failed to fetch")])%list
  /\ timers (snd (_makeRequest Examples.w_offline Examples.embed _getHeaders initial))
     = next_timer initial :: timers initial.
Proof.
  apply (rejected_request_keeps_timer Examples.w_offline initial Examples.embed
           _getHeaders (TypeError "Failed to fetch")).
  reflexivity.
Defined.

(** ** C8: two invocations *)

(** C8, as amended.  Two invocations that are served the same token and
    the same video base URL return links that agree in everything but the
    random suffix and the expiry: the two links are equal exactly when the
    ten random characters are the same and the two clock readings fall
    into the same second. *)
Theorem links_differ_by_suffix_and_expiry w1 st1 w2 st2 url token videoBaseUrl :
  url <> "" ->
  resolvable w1 st1 url token videoBaseUrl ->
  resolvable w2 st2 url token videoBaseUrl ->
  random_in_unit_interval w1 ->
  random_in_unit_interval w2 ->
  fst (getDirectLink w1 (Str url) st1)
  = Normal (videoBaseUrl ++ drawn w1 10 (randoms st1) ++ "?token=" ++ token
              ++ "&expiry=" ++ Number_toString (Date_now w1 (clocks st1) / 1000))
  /\ fst (getDirectLink w2 (Str url) st2)
     = Normal (videoBaseUrl ++ drawn w2 10 (randoms st2) ++ "?token=" ++ token
                 ++ "&expiry=" ++ Number_toString (Date_now w2 (clocks st2) / 1000))
  /\ (fst (getDirectLink w1 (Str url) st1) = fst (getDirectLink w2 (Str url) st2)
      <-> drawn w1 10 (randoms st1) = drawn w2 10 (randoms st2)
          /\ Date_now w1 (clocks st1) / 1000 = Date_now w2 (clocks st2) / 1000).
Proof.
  intros Hurl H1 H2 R1 R2.
  pose proof (getDirectLink_run w1 st1 url token videoBaseUrl Hurl H1) as E1.
  pose proof (getDirectLink_run w2 st2 url token videoBaseUrl Hurl H2) as E2.
  split; [exact E1 | split; [exact E2 |]].
  rewrite E1, E2. split.
  - intros [= H]. apply append_inv_head in H.
    destruct (drawn_alnum w1 10 (randoms st1) R1) as [L1 _].
    destruct (drawn_alnum w2 10 (randoms st2) R2) as [L2 _].
    apply append_inv_length in H; [| congruence].
    destruct H as [Hr H]. split; [exact Hr |].
    apply append_inv_head in H. apply append_inv_head in H.
    apply append_inv_head in H. now apply Number_toString_inj.
  - intros [-> ->]. reflexivity.
Qed.

(** C8, as amended, on two invocations in a row in the world [w_ok]. *)
Lemma links_differ_by_suffix_and_expiry_witness :
  let st1 := initial in
  let st2 := snd (getDirectLink Examples.w_ok (Str Examples.embed) initial) in
  fst (getDirectLink Examples.w_ok (Str Examples.embed) st1)
  = Normal (Examples.video_base ++ drawn Examples.w_ok 10 (randoms st1) ++ "?token=" ++ "tk9abc"
              ++ "&expiry=" ++ Number_toString (Date_now Examples.w_ok (clocks st1) / 1000))
  /\ fst (getDirectLink Examples.w_ok (Str Examples.embed) st2)
     = Normal (Examples.video_base ++ drawn Examples.w_ok 10 (randoms st2) ++ "?token=" ++ "tk9abc"
                 ++ "&expiry=" ++ Number_toString (Date_now Examples.w_ok (clocks st2) / 1000))
  /\ (fst (getDirectLink Examples.w_ok (Str Examples.embed) st1)
      = fst (getDirectLink Examples.w_ok (Str Examples.embed) st2)
      <-> drawn Examples.w_ok 10 (randoms st1) = drawn Examples.w_ok 10 (randoms st2)
          /\ Date_now Examples.w_ok (clocks st1) / 1000
             = Date_now Examples.w_ok (clocks st2) / 1000).
Proof.
  intros st1 st2.
  apply (links_differ_by_suffix_and_expiry Examples.w_ok st1 Examples.w_ok st2
           Examples.embed "tk9abc" Examples.video_base).
  - discriminate.
  - exact w_ok_resolvable.
  - exact w_ok_resolvable_again.
  - apply example_worlds_random.
  - apply example_worlds_random.
Defined.

(** C8 as it stands fails.  In the world [w_ok] the random numbers repeat
    after ten draws and the clock moves by a quarter of a second per
    reading: two invocations in a row, at different times, return the
    same link. *)
Lemma links_differ_by_suffix_and_expiry_counterexample :
  let first := getDirectLink Examples.w_ok (Str Examples.embed) initial in
  let second := getDirectLink Examples.w_ok (Str Examples.embed) (snd first) in
  fst first = Normal "https://cdn.example/v/abc~AGMSYejpv1?token=tk9abc&expiry=1730000000"
  /\ fst second = Normal "https://cdn.example/v/abc~AGMSYejpv1?token=tk9abc&expiry=1730000000"
  /\ fst first = fst second
  /\ Date_now Examples.w_ok (clocks initial) <> Date_now Examples.w_ok (clocks (snd first)).
Proof.
  cbv zeta.
  split; [vm_compute; reflexivity |].
  split; [vm_compute; reflexivity |].
  split; [vm_compute; reflexivity |].
  vm_compute. discriminate.
Qed.

(** ** C9: a response outside the success range *)

(** C9.  For every response whose status is not in the success range, the
    Fetcher fails with the [HttpError] of that status, and so does
    [getDirectLink], with the same error and no link, whether the response
    answers the request for the embed page or the request for the
    [pass_md5] URL. *)
Theorem http_error_propagates w st url r :
  ok r = false ->
  (forall headers,
      fetch_settles w (fetches st) url = Resolves r ->
      fst (_makeRequest w url headers st) = Throw (Spec.HttpError (status r)))
  /\ (url <> "" ->
      fetch_settles w (fetches st) url = Resolves r ->
      fst (getDirectLink w (Str url) st) = Throw (Spec.HttpError (status r)))
  /\ (forall content fragment token passUrl,
         url <> "" ->
         served w (fetches st) url content ->
         _extractData PASS_MD5_PATTERN content = Some fragment ->
         _extractData TOKEN_PATTERN content = Some token ->
         pass_md5_target w fragment = Some passUrl ->
         fetch_settles w (S (fetches st)) passUrl = Resolves r ->
         fst (getDirectLink w (Str url) st) = Throw (Spec.HttpError (status r))).
Proof.
  intros Hbad. split; [| split].
  - intros headers Hf. unfold_js. cbn. step Hf. step Hbad. reflexivity.
  - intros Hurl Hf. apply truthy_iff in Hurl.
    unfold_js. step Hurl. step Hf. step Hbad. reflexivity.
  - intros content fragment token passUrl Hurl (r1 & Hf1 & Hok1 & Ht1) Hfrag Htok
           Htarget Hf2.
    apply truthy_iff in Hurl.
    pose proof (fragment_truthy _ _ Hfrag) as Hfragment.
    pose proof (token_truthy _ _ Htok) as Htoken.
    unfold_js. step Hurl. step Hf1. step Hok1. step Ht1. step Hfrag. step Hfragment.
    destruct (resolved_target _ _ _ Htarget) as [[Hs ->] | [Hs (u & Hu & <-)]].
    + step Hs. step Htok. step Htoken. step Hf2. step Hbad. reflexivity.
    + step Hs. step Hu. step Htok. step Htoken. step Hf2. step Hbad. reflexivity.
Qed.

(** C9 on the worlds [w_404] and [w_403]. *)
Lemma http_error_propagates_witness :
  fst (_makeRequest Examples.w_404 Examples.embed _getHeaders initial)
  = Throw (Spec.HttpError 404)
  /\ fst (getDirectLink Examples.w_404 (Str Examples.embed) initial)
     = Throw (Spec.HttpError 404)
  /\ fst (getDirectLink Examples.w_403 (Str Examples.embed) initial)
     = Throw (Spec.HttpError 403).
Proof.
  split; [| split].
  - apply (proj1 (http_error_propagates Examples.w_404 initial Examples.embed
                    (mkResponse 404 (Normal "Not Found")) eq_refl)).
    reflexivity.
  - apply (proj1 (proj2 (http_error_propagates Examples.w_404 initial Examples.embed
                           (mkResponse 404 (Normal "Not Found")) eq_refl))).
    + discriminate.
    + reflexivity.
  - apply (proj2 (proj2 (http_error_propagates Examples.w_403 initial Examples.embed
                           (mkResponse 403 (Normal "Forbidden")) eq_refl))
             (Examples.page "/pass_md5/xyz") "/pass_md5/xyz" "tk9abc"
             "https://dood.li/pass_md5/xyz").
    + discriminate.
    + served_here.
    + vm_compute; reflexivity.
    + vm_compute; reflexivity.
    + vm_compute; reflexivity.
    + reflexivity.
Defined.

(** ** C10: the order of the two extractions *)

(** C10.  For every served page that matches neither pattern,
    [getDirectLink] fails with the [ExtractionError] that names the
    [pass_md5] field, not with the one that names the token. *)
Theorem pass_md5_is_missed_first w st url content :
  url <> "" ->
  served w (fetches st) url content ->
  _extractData PASS_MD5_PATTERN content = None ->
  _extractData TOKEN_PATTERN content = None ->
  fst (getDirectLink w (Str url) st) = Throw (Spec.ExtractionError Spec.pass_md5 url)
  /\ fst (getDirectLink w (Str url) st) <> Throw (Spec.ExtractionError Spec.token url).
Proof.
  intros Hurl (r1 & Hf1 & Hok1 & Ht1) Hfrag _.
  apply truthy_iff in Hurl.
  unfold_js. step Hurl. step Hf1. step Hok1. step Ht1. step Hfrag.
  split; [reflexivity | discriminate].
Qed.

(** C10 on the world [w_nothing]. *)
Lemma pass_md5_is_missed_first_witness :
  fst (getDirectLink Examples.w_nothing (Str Examples.embed) initial)
  = Throw (Spec.ExtractionError Spec.pass_md5 Examples.embed)
  /\ fst (getDirectLink Examples.w_nothing (Str Examples.embed) initial)
     <> Throw (Spec.ExtractionError Spec.token Examples.embed).
Proof.
  apply (pass_md5_is_missed_first Examples.w_nothing initial Examples.embed
           Examples.page_without_anything).
  - discriminate.
  - served_here.
  - vm_compute; reflexivity.
  - vm_compute; reflexivity.
Defined.

(** * More of the code *)

(** ** The pattern matcher *)

Lemma append_cons c (a b : string) : String c a ++ b = String c (a ++ b).
Proof. reflexivity. Qed.

Lemma append_nil (b : string) : "" ++ b = b.
Proof. reflexivity. Qed.

Lemma keep_kept cap c a r : keep cap c (kept cap a r) = kept cap (String c a) r.
Proof. now destruct cap. Qed.

Lemma option_map_some {A B} (f : A -> B) (m : option A) :
  m <> None -> option_map f m <> None.
Proof. now destruct m. Qed.

(** A literal at the head of a pattern consumes itself. *)
Lemma match_literal s p cap str r :
  match_here (literal s ++ p)%list cap str = Some r ->
  exists rest r',
    str = s ++ rest /\ match_here p cap rest = Some r' /\ r = kept cap s r'.
Proof.
  revert str r. induction s as [| c s IH]; intros str r H.
  - exists str, r. repeat split; [exact H | now destruct cap].
  - cbn [literal app match_here] in H.
    destruct str as [| d str]; [discriminate |].
    cbn [mem] in H. destruct (Ascii.eqb_spec d c) as [-> | _]; [| discriminate].
    destruct (match_here (literal s ++ p)%list cap str) as [r0 |] eqn:E; [| discriminate].
    injection H as <-. destruct (IH _ _ E) as (rest & r' & -> & Hp & ->).
    exists rest, r'. repeat split; [exact Hp | apply keep_kept].
Qed.

Lemma match_literal_here s p cap rest :
  match_here (literal s ++ p)%list cap (s ++ rest)
  = option_map (kept cap s) (match_here p cap rest).
Proof.
  induction s as [| c s IH].
  - cbn [literal app]. rewrite append_nil.
    destruct (match_here p cap rest); [| reflexivity]. now destruct cap.
  - cbn [literal app match_here]. rewrite append_cons. cbn [mem].
    rewrite Ascii.eqb_refl, IH.
    destruct (match_here p cap rest); [| reflexivity].
    cbn [option_map]. now rewrite keep_kept.
Qed.

(** A star consumes a run of the class and hands the rest over. *)
Lemma star_inv cs cap k s r :
  star cs cap k s = Some r ->
  exists a b r',
    s = a ++ b /\ JSString.forallb (mem cs) a = true /\ k b = Some r'
    /\ r = kept cap a r'.
Proof.
  revert r. induction s as [| c s IH]; intros r H; cbn [star] in H.
  - exists "", "", r. repeat split; [exact H | now destruct cap].
  - destruct (mem cs c) eqn:Hc.
    + destruct (star cs cap k s) as [r0 |] eqn:E.
      * injection H as <-. destruct (IH _ eq_refl) as (a & b & r' & -> & Ha & Hk & ->).
        exists (String c a), b, r'. repeat split; auto.
        -- cbn [JSString.forallb]. now rewrite Hc, Ha.
        -- apply keep_kept.
      * exists "", (String c s), r. repeat split; [exact H | now destruct cap].
    + exists "", (String c s), r. repeat split; [exact H | now destruct cap].
Qed.

Lemma star_total cs cap k s :
  (forall x, k x <> None) -> star cs cap k s <> None.
Proof.
  intros Hk. induction s as [| d s IH]; cbn [star]; [apply Hk |].
  destruct (mem cs d); [| apply Hk].
  destruct (star cs cap k s); [discriminate | apply Hk].
Qed.

(** If the continuation never fails, the star takes the whole run: what
    is left does not start in the class. *)
Lemma star_greedy cs cap k s r :
  (forall x, k x <> None) ->
  star cs cap k s = Some r ->
  exists a b r',
    s = a ++ b /\ JSString.forallb (mem cs) a = true /\ starts_in (mem cs) b = false
    /\ k b = Some r' /\ r = kept cap a r'.
Proof.
  intros Hk. revert r. induction s as [| c s IH]; intros r H; cbn [star] in H.
  - exists "", "", r. repeat split; [exact H | now destruct cap].
  - destruct (mem cs c) eqn:Hc.
    + destruct (star cs cap k s) as [r0 |] eqn:E.
      * injection H as <-.
        destruct (IH _ eq_refl) as (a & b & r' & -> & Ha & Hb & Hkb & ->).
        exists (String c a), b, r'. repeat split; auto.
        -- cbn [JSString.forallb]. now rewrite Hc, Ha.
        -- apply keep_kept.
      * now destruct (star_total cs cap k s Hk).
    + exists "", (String c s), r.
      split; [reflexivity |]. split; [reflexivity |].
      split; [exact Hc |]. split; [exact H | now destruct cap].
Qed.

(** A star succeeds wherever some run of the class is followed by a match of
    the continuation. *)
Lemma star_complete cs cap k a s :
  JSString.forallb (mem cs) a = true ->
  k s <> None ->
  star cs cap k (a ++ s) <> None.
Proof.
  intros Ha Hk. induction a as [| c a IH].
  - rewrite append_nil. destruct s as [| d s]; cbn [star]; [exact Hk |].
    destruct (mem cs d); [| exact Hk].
    destruct (star cs cap k s); [discriminate | exact Hk].
  - cbn [JSString.forallb] in Ha. apply andb_prop in Ha. destruct Ha as [Hc Ha].
    rewrite append_cons. cbn [star]. rewrite Hc.
    destruct (star cs cap k (a ++ s)) eqn:E; [discriminate |].
    now destruct (IH Ha).
Qed.

Lemma exec_eq p s :
  exec p s
  = match match_here p false s with
    | Some r => Some r
    | None => match s with EmptyString => None | String _ s' => exec p s' end
    end.
Proof. now destruct s. Qed.

(** [exec] finds a match wherever one starts. *)
Lemma exec_complete p pre s :
  match_here p false s <> None -> exec p (pre ++ s) <> None.
Proof.
  intros H. induction pre as [| c pre IH].
  - rewrite append_nil, exec_eq. destruct (match_here p false s); congruence.
  - rewrite append_cons, exec_eq.
    destruct (match_here p false (String c (pre ++ s))); [discriminate | exact IH].
Qed.

(** What [exec] returns is a match that starts somewhere in the input. *)
Lemma exec_inv p s r :
  exec p s = Some r ->
  exists pre rest, s = pre ++ rest /\ match_here p false rest = Some r.
Proof.
  induction s as [| c s IH]; rewrite exec_eq.
  - destruct (match_here p false "") eqn:E; [| discriminate].
    intros [= <-]. now exists "", "".
  - destruct (match_here p false (String c s)) eqn:E.
    + intros [= <-]. now exists "", (String c s).
    + intros H. destruct (IH H) as (pre & rest & -> & Hm).
      now exists (String c pre), rest.
Qed.

(** What [exec] returns is the match at the first position that has one. *)
Lemma exec_first p s r :
  exec p s = Some r ->
  exists pre rest,
    s = pre ++ rest /\ match_here p false rest = Some r
    /\ forall a b, s = a ++ b -> (String.length a < String.length pre)%nat ->
                   match_here p false b = None.
Proof.
  induction s as [| c s IH]; rewrite exec_eq.
  - destruct (match_here p false "") eqn:E; [| discriminate].
    intros [= <-]. exists "", "". repeat split; auto.
    intros a b _ Hl. cbn in Hl. lia.
  - destruct (match_here p false (String c s)) eqn:E.
    + intros [= <-]. exists "", (String c s). repeat split; auto.
      intros a b _ Hl. cbn in Hl. lia.
    + intros H. destruct (IH H) as (pre & rest & -> & Hm & Hfirst).
      exists (String c pre), rest. repeat split; auto.
      intros [| d a] b Hab Hl.
      * rewrite append_nil in Hab. now subst b.
      * rewrite append_cons in Hab. injection Hab as _ Hab.
        apply (Hfirst a b Hab). cbn in Hl. lia.
Qed.

(** ** The token pattern *)

Lemma token_match s t :
  match_here TOKEN_PATTERN false s = Some t ->
  exists post,
    s = "token=" ++ t ++ post /\ t <> ""
    /\ JSString.forallb is_alnum t = true /\ starts_in is_alnum post = false.
Proof.
  unfold TOKEN_PATTERN. intros H.
  apply match_literal in H. destruct H as (rest & r & -> & H & ->).
  cbn [app plus match_here kept mem] in H.
  destruct rest as [| c rest]; [discriminate |].
  destruct (is_alnum c) eqn:Hc; [| discriminate].
  destruct (star AlNum true _ rest) as [r0 |] eqn:E;
    cbn [option_map] in H; [| discriminate].
  injection H as <-.
  apply star_greedy in E; [| discriminate].
  destruct E as (a & b & r' & -> & Ha & Hb & Hk & ->).
  injection Hk as <-. cbn [kept keep]. rewrite append_empty_r.
  exists b. repeat split; auto.
  - discriminate.
  - change (mem AlNum) with is_alnum in Ha.
    cbn [JSString.forallb]. now rewrite Hc, Ha.
Qed.

Lemma token_match_complete c rest :
  is_alnum c = true ->
  match_here TOKEN_PATTERN false ("token=" ++ String c rest) <> None.
Proof.
  intros Hc. unfold TOKEN_PATTERN. rewrite match_literal_here.
  cbn [app plus match_here mem]. rewrite Hc.
  destruct (star AlNum true _ rest) eqn:E; [cbn [option_map]; discriminate |].
  apply star_total in E; [contradiction | discriminate].
Qed.

(** ** The pass_md5 pattern *)

Lemma fragment_match s f :
  match_here PASS_MD5_PATTERN false s = Some f ->
  exists a b post,
    s = "$.get('" ++ f ++ "'" ++ post /\ f = a ++ "/pass_md5/" ++ b
    /\ JSString.forallb not_quote a = true /\ JSString.forallb not_quote b = true.
Proof.
  unfold PASS_MD5_PATTERN. intros H.
  apply match_literal in H. destruct H as (rest & r & -> & H & ->).
  cbn [app match_here kept] in H.
  apply star_inv in H. destruct H as (a & s1 & r1 & -> & Ha & H & ->).
  change (match_here
            (literal "/pass_md5/" ++ [Star (Not "'"); GroupClose] ++ literal "'")%list
            true s1 = Some r1) in H.
  apply match_literal in H. destruct H as (s2 & r2 & -> & H & ->).
  cbn [app match_here] in H.
  apply star_inv in H. destruct H as (b & s3 & r3 & -> & Hb & H & ->).
  change (match_here (literal "'" ++ [])%list false s3 = Some r3) in H.
  apply match_literal in H. destruct H as (post & r4 & -> & H & ->).
  injection H as <-. cbn [kept]. rewrite append_empty_r.
  exists a, b, post. repeat split; auto.
  now rewrite !append_assoc.
Qed.

Lemma fragment_match_complete a b post :
  JSString.forallb not_quote a = true ->
  JSString.forallb not_quote b = true ->
  match_here PASS_MD5_PATTERN false
    ("$.get('" ++ (a ++ "/pass_md5/" ++ b) ++ "'" ++ post) <> None.
Proof.
  intros Ha Hb. unfold PASS_MD5_PATTERN. rewrite match_literal_here.
  apply option_map_some. cbn [app match_here]. rewrite !append_assoc.
  apply star_complete; [exact Ha |].
  rewrite match_literal_here. apply option_map_some. cbn [app match_here].
  apply star_complete; [exact Hb |].
  change (match_here (literal "'" ++ [])%list false ("'" ++ post) <> None).
  rewrite match_literal_here. discriminate.
Qed.

(** ** What the two extractors find *)

Lemma token_occurs_found content :
  token_occurs content -> exists t, _extractData TOKEN_PATTERN content = Some t.
Proof.
  intros (pre & c & rest & -> & Hc). unfold _extractData.
  pose proof (exec_complete TOKEN_PATTERN pre _ (token_match_complete c rest Hc)) as H.
  destruct (exec TOKEN_PATTERN _) as [t |]; [now exists t | contradiction].
Qed.

Lemma token_found content t :
  _extractData TOKEN_PATTERN content = Some t ->
  exists pre post,
    content = pre ++ "token=" ++ t ++ post /\ t <> ""
    /\ JSString.forallb is_alnum t = true /\ starts_in is_alnum post = false
    /\ forall a c b,
         content = a ++ "token=" ++ String c b -> is_alnum c = true ->
         (String.length pre <= String.length a)%nat.
Proof.
  unfold _extractData. destruct (exec TOKEN_PATTERN content) as [r |] eqn:E;
    [| discriminate].
  intros [= ->]. apply exec_first in E.
  destruct E as (pre & rest & -> & Hm & Hfirst).
  apply token_match in Hm. destruct Hm as (post & -> & Ht & Hal & Hpost).
  exists pre, post. repeat split; auto.
  intros a c b Hab Hc.
  destruct (Nat.le_gt_cases (String.length pre) (String.length a)) as [| Hlt]; [assumption |].
  apply (Hfirst _ _ Hab) in Hlt. now destruct (token_match_complete c b Hc).
Qed.

Lemma token_found_occurs content t :
  _extractData TOKEN_PATTERN content = Some t -> token_occurs content.
Proof.
  intros H. destruct (token_found _ _ H) as (pre & post & -> & Ht & Hal & _).
  destruct t as [| c t]; [contradiction |].
  cbn [JSString.forallb] in Hal. apply andb_prop in Hal.
  exists pre, c, (t ++ post). now rewrite append_cons.
Qed.

Lemma fragment_at_found content pre fragment :
  fragment_at content pre fragment ->
  exists f, _extractData PASS_MD5_PATTERN content = Some f.
Proof.
  intros [[Hq (a & b & ->)] (post & ->)]. unfold _extractData.
  rewrite !forallb_append in Hq.
  apply andb_prop in Hq. destruct Hq as [Ha Hq].
  apply andb_prop in Hq. destruct Hq as [_ Hb].
  pose proof (exec_complete PASS_MD5_PATTERN pre _
                (fragment_match_complete a b post Ha Hb)) as H.
  destruct (exec PASS_MD5_PATTERN _) as [f |]; [now exists f | contradiction].
Qed.

Lemma fragment_like_parts a b :
  JSString.forallb not_quote a = true -> JSString.forallb not_quote b = true ->
  fragment_like (a ++ "/pass_md5/" ++ b).
Proof.
  intros Ha Hb. split; [| now exists a, b].
  rewrite !forallb_append, Ha, Hb. reflexivity.
Qed.

Lemma fragment_found content f :
  _extractData PASS_MD5_PATTERN content = Some f ->
  exists pre,
    fragment_at content pre f
    /\ forall pre' f', fragment_at content pre' f' ->
                       (String.length pre <= String.length pre')%nat.
Proof.
  unfold _extractData. destruct (exec PASS_MD5_PATTERN content) as [r |] eqn:E;
    [| discriminate].
  intros [= ->]. apply exec_first in E.
  destruct E as (pre & rest & -> & Hm & Hfirst).
  apply fragment_match in Hm. destruct Hm as (a & b & post & -> & -> & Ha & Hb).
  exists pre. split.
  - split; [now apply fragment_like_parts | now exists post].
  - intros pre' f' [[Hq (a' & b' & ->)] (post' & Heq)].
    destruct (Nat.le_gt_cases (String.length pre) (String.length pre')) as [| Hlt];
      [assumption |].
    apply (Hfirst _ _ Heq) in Hlt.
    rewrite !forallb_append in Hq.
    apply andb_prop in Hq. destruct Hq as [Ha' Hq].
    apply andb_prop in Hq. destruct Hq as [_ Hb'].
    now destruct (fragment_match_complete a' b' post' Ha' Hb').
Qed.

(** X1.  [_extractToken] returns a token exactly when the text [token=]
    followed by a letter or digit occurs in the content; otherwise it
    throws the error that names the embed URL, and nothing is logged. *)
Theorem extractToken_fails_iff content embedUrl st :
  (token_occurs content
   <-> exists t, fst (_extractToken content embedUrl st) = Normal t)
  /\ (~ token_occurs content
      <-> _extractToken content embedUrl st
          = (Throw (Error ("Token not found in " ++ embedUrl)), st)).
Proof.
  unfold _extractToken.
  destruct (_extractData TOKEN_PATTERN content) as [t |] eqn:E.
  - pose proof (token_found_occurs _ _ E) as Hocc.
    rewrite (token_truthy _ _ E). cbn. split; split.
    + intros _. now exists t.
    + intros _. exact Hocc.
    + intros Hn. contradiction.
    + discriminate.
  - split; split.
    + intros Hocc. apply token_occurs_found in Hocc.
      destruct Hocc as [t Ht]. congruence.
    + intros [t Ht]. discriminate.
    + reflexivity.
    + intros _ Hocc. apply token_occurs_found in Hocc.
      destruct Hocc as [t Ht]. congruence.
Qed.

(** X2.  The token that [_extractToken] returns is the whole run of
    letters and digits after the first [token=] that is followed by one:
    it is not empty, what follows it is no letter or digit, and no such
    [token=] starts earlier in the content. *)
Theorem extractToken_first_run content embedUrl st t :
  fst (_extractToken content embedUrl st) = Normal t ->
  exists pre post,
    content = pre ++ "token=" ++ t ++ post /\ t <> ""
    /\ JSString.forallb is_alnum t = true /\ starts_in is_alnum post = false
    /\ forall a c b,
         content = a ++ "token=" ++ String c b -> is_alnum c = true ->
         (String.length pre <= String.length a)%nat.
Proof.
  unfold _extractToken.
  destruct (_extractData TOKEN_PATTERN content) as [t' |] eqn:E; [| discriminate].
  rewrite (token_truthy _ _ E). cbn. intros [= <-]. now apply token_found.
Qed.

(** X2 on the page of the example: the token ends at the ampersand. *)
Lemma extractToken_first_run_witness :
  exists pre post,
    Examples.page "/pass_md5/xyz" = pre ++ "token=" ++ "tk9abc" ++ post
    /\ "tk9abc" <> ""
    /\ JSString.forallb is_alnum "tk9abc" = true /\ starts_in is_alnum post = false
    /\ forall a c b,
         Examples.page "/pass_md5/xyz" = a ++ "token=" ++ String c b ->
         is_alnum c = true ->
         (String.length pre <= String.length a)%nat.
Proof.
  apply (extractToken_first_run (Examples.page "/pass_md5/xyz")
           Examples.embed initial "tk9abc").
  vm_compute. reflexivity.
Defined.

(** X3.  [_extractPassMd5Url] fails with the error that names the embed
    URL exactly when the content has no call [$.get('...'] whose quoted
    argument is free of quotes and contains [/pass_md5/]; nothing is
    logged then and the [URL] constructor is not consulted. *)
Theorem extractPassMd5Url_missing_iff w content embedUrl st :
  (~ exists pre fragment, fragment_at content pre fragment)
  <-> _extractPassMd5Url w content embedUrl st
      = (Throw (Error ("pass_md5 URL not found in " ++ embedUrl)), st).
Proof.
  unfold _extractPassMd5Url.
  destruct (_extractData PASS_MD5_PATTERN content) as [f |] eqn:E.
  - rewrite (fragment_truthy _ _ E). cbn [negb].
    destruct (fragment_found _ _ E) as (pre & Hat & _).
    split; [intros Hn; destruct Hn; now exists pre, f |].
    unfold_js. destruct (startsWith f "http"); cbn.
    + discriminate.
    + destruct (URL_ctor w f (Some DOODSTREAM_BASE_URL)); cbn; discriminate.
  - split; [reflexivity |].
    intros _ (pre & f & Hat). apply fragment_at_found in Hat.
    destruct Hat as [f' Hf']. congruence.
Qed.

(** X4.  What [_extractPassMd5Url] returns comes from the first call
    [$.get('...'] of the content whose quoted argument is free of quotes
    and contains [/pass_md5/]: the argument itself if it starts with
    [http], otherwise what the [URL] constructor makes of it against the
    service origin. *)
Theorem extractPassMd5Url_first_call w content embedUrl st fullUrl :
  fst (_extractPassMd5Url w content embedUrl st) = Normal fullUrl ->
  exists pre fragment,
    fragment_at content pre fragment
    /\ (forall pre' f', fragment_at content pre' f' ->
                        (String.length pre <= String.length pre')%nat)
    /\ pass_md5_target w fragment = Some fullUrl.
Proof.
  unfold _extractPassMd5Url.
  destruct (_extractData PASS_MD5_PATTERN content) as [f |] eqn:E; [| discriminate].
  rewrite (fragment_truthy _ _ E). cbn [negb].
  destruct (fragment_found _ _ E) as (pre & Hat & Hfirst).
  intros H. exists pre, f. split; [exact Hat |]. split; [exact Hfirst |].
  revert H. unfold pass_md5_target. unfold_js.
  destruct (startsWith f "http"); cbn.
  - now intros [= <-].
  - destruct (URL_ctor w f (Some DOODSTREAM_BASE_URL)); cbn; [| discriminate].
    now intros [= <-].
Qed.

(** X4 on the page of the example. *)
Lemma extractPassMd5Url_first_call_witness :
  exists pre fragment,
    fragment_at (Examples.page "/pass_md5/xyz") pre fragment
    /\ (forall pre' f', fragment_at (Examples.page "/pass_md5/xyz") pre' f' ->
                        (String.length pre <= String.length pre')%nat)
    /\ pass_md5_target Examples.w_ok fragment = Some Failures.pass_md5_url.
Proof.
  apply (extractPassMd5Url_first_call Examples.w_ok (Examples.page "/pass_md5/xyz")
           Examples.embed initial Failures.pass_md5_url).
  vm_compute. reflexivity.
Defined.

(** ** Reading a trace *)

Lemma fetched_app (a b : list Event) : fetched (a ++ b) = (fetched a ++ fetched b)%list.
Proof.
  induction a as [| e a IH]; cbn [fetched app]; [reflexivity |].
  destruct e; cbn [app]; now rewrite IH.
Qed.

Lemma fetched_random (n : nat) : fetched (List.repeat EvRandom n) = [].
Proof. induction n; cbn; auto. Qed.

Lemma armed_app (a b : list Event) : armed (a ++ b) = (armed a ++ armed b)%list.
Proof.
  induction a as [| e a IH]; cbn [armed app]; [reflexivity |].
  destruct e; cbn [app]; now rewrite IH.
Qed.

Lemma armed_random (n : nat) : armed (List.repeat EvRandom n) = [].
Proof. induction n; cbn; auto. Qed.

Lemma reported_app (a b : list Event) :
  reported (a ++ b) = (reported a ++ reported b)%list.
Proof.
  induction a as [| e a IH]; cbn [reported app]; [reflexivity |].
  destruct e; cbn [app]; now rewrite IH.
Qed.

Lemma reported_random (n : nat) : reported (List.repeat EvRandom n) = [].
Proof. induction n; cbn; auto. Qed.

#[local] Hint Rewrite fetched_app fetched_random armed_app armed_random
  reported_app reported_random app_nil_r : events.
#[local] Hint Rewrite <- app_assoc : events.

(** ** A single request *)

Lemma disarmed (id : nat) (l : list nat) :
  ~ In id (List.filter (fun t => negb (Nat.eqb t id)) l).
Proof.
  intros Hin. apply filter_In in Hin. destruct Hin as [_ Hin].
  now rewrite Nat.eqb_refl in Hin.
Qed.

(** X5.  However a request ends, [_makeRequest] has armed one timer of
    thirty seconds and then sent one request, to the URL and with the
    headers it was given. *)
Theorem makeRequest_arms_then_fetches w url headers st :
  (exists rest,
      trace (snd (_makeRequest w url headers st))
      = (trace st ++ EvSetTimeout (next_timer st) 30000
                  :: EvFetch url headers :: rest)%list
      /\ fetched rest = [] /\ armed rest = [])
  /\ fetches (snd (_makeRequest w url headers st)) = S (fetches st)
  /\ next_timer (snd (_makeRequest w url headers st)) = S (next_timer st).
Proof.
  unfold_js. cbn.
  destruct (fetch_settles w (fetches st) url) as [r | e |]; cbn;
    [destruct (ok r); cbn | |];
    (split; [eexists; split; [now rewrite <- !app_assoc | now split] | now split]).
Qed.

(** X6.  A response that [_makeRequest] returns is the one the network
    gave, its status is in the success range, and the timer of the request
    has been cleared. *)
Theorem makeRequest_returns_success_only w url headers st r :
  fst (_makeRequest w url headers st) = Normal r ->
  fetch_settles w (fetches st) url = Resolves r
  /\ ok r = true
  /\ In (EvClearTimeout (next_timer st)) (trace (snd (_makeRequest w url headers st)))
  /\ ~ In (next_timer st) (timers (snd (_makeRequest w url headers st))).
Proof.
  unfold_js. cbn.
  destruct (fetch_settles w (fetches st) url) as [r' | e |]; cbn; try discriminate.
  destruct (ok r') eqn:Hok; cbn; [| discriminate].
  intros [= <-]. split; [reflexivity |]. split; [exact Hok |]. split.
  - apply in_or_app. right. now left.
  - rewrite Nat.eqb_refl. apply disarmed.
Qed.

(** X6 on the embed page of the ordinary world. *)
Lemma makeRequest_returns_success_only_witness :
  fetch_settles Examples.w_ok 0 Examples.embed
  = Resolves (mkResponse 200 (Normal (Examples.page "/pass_md5/xyz")))
  /\ ok (mkResponse 200 (Normal (Examples.page "/pass_md5/xyz"))) = true
  /\ In (EvClearTimeout 0)
        (trace (snd (_makeRequest Examples.w_ok Examples.embed _getHeaders initial)))
  /\ ~ In 0%nat (timers (snd (_makeRequest Examples.w_ok Examples.embed _getHeaders initial))).
Proof.
  apply (makeRequest_returns_success_only Examples.w_ok Examples.embed _getHeaders
           initial (mkResponse 200 (Normal (Examples.page "/pass_md5/xyz")))).
  vm_compute. reflexivity.
Defined.

(** X7.  [_makeRequest] fails in three ways only: with the rejection of
    [fetch], with the abort of a request that the timer ended, or with the
    error that carries the status of a response outside the success
    range.  The error thrown is the one reported on the console, as the
    last thing the method does. *)
Theorem makeRequest_failure_kinds w url headers st e :
  fst (_makeRequest w url headers st) = Throw e ->
  (fetch_settles w (fetches st) url = Rejects e
   \/ (fetch_settles w (fetches st) url = Stalls /\ e = AbortError)
   \/ exists r,
        fetch_settles w (fetches st) url = Resolves r /\ ok r = false
        /\ e = Error ("HTTP error! status: " ++ Number_toString (status r)))
  /\ exists before,
       trace (snd (_makeRequest w url headers st))
       = (before ++ [EvError ("Request failed for " ++ url ++ ":") e])%list.
Proof.
  unfold_js. cbn.
  destruct (fetch_settles w (fetches st) url) as [r | e' |]; cbn.
  - destruct (ok r) eqn:Hok; cbn; [discriminate |].
    intros [= <-]. split; [| now eexists].
    right. right. now exists r.
  - intros [= <-]. split; [now left | now eexists].
  - intros [= <-]. split; [right; left; now split | now eexists].
Qed.

(** X7 without a network. *)
Lemma makeRequest_failure_kinds_witness :
  (fetch_settles Examples.w_offline 0 Examples.embed
   = Rejects (TypeError "Failed to fetch")
   \/ (fetch_settles Examples.w_offline 0 Examples.embed = Stalls
       /\ TypeError "Failed to fetch" = AbortError)
   \/ exists r,
        fetch_settles Examples.w_offline 0 Examples.embed = Resolves r
        /\ ok r = false
        /\ TypeError "Failed to fetch"
           = Error ("HTTP error! status: " ++ Number_toString (status r)))
  /\ exists before,
       trace (snd (_makeRequest Examples.w_offline Examples.embed _getHeaders initial))
       = (before ++ [EvError ("Request failed for " ++ Examples.embed ++ ":")
                             (TypeError "Failed to fetch")])%list.
Proof.
  apply (makeRequest_failure_kinds Examples.w_offline Examples.embed _getHeaders
           initial (TypeError "Failed to fetch")).
  vm_compute. reflexivity.
Defined.

(** ** Every run of [getDirectLink] *)

(** X8.  A call of [getDirectLink] makes at most two requests, the first
    one to the embed URL it was given, and every request carries the
    headers of [_getHeaders]. *)
Theorem getDirectLink_requests_at_most_two w v st :
  exists new,
    fetched (trace (snd (getDirectLink w v st))) = (fetched (trace st) ++ new)%list
    /\ fetches (snd (getDirectLink w v st)) = (List.length new + fetches st)%nat
    /\ (List.length new <= 2)%nat
    /\ Forall (fun q => snd q = _getHeaders) new
    /\ match new with
       | [] => True
       | (first, _) :: _ => v = Str first
       end.
Proof.
  assert (Hnone : forall s : State,
             exists new,
               fetched (trace s) = (fetched (trace s) ++ new)%list
               /\ fetches s = (List.length new + fetches s)%nat
               /\ (List.length new <= 2)%nat
               /\ Forall (fun q => snd q = _getHeaders) new
               /\ match new with
                  | [] => True
                  | (first, _) :: _ => v = Str first
                  end).
  { intros s. exists []. rewrite app_nil_r. repeat split; auto. }
  destruct v as [| | url]; try apply Hnone. clear Hnone.
  unfold_js. explore;
    try (exists []; rewrite app_nil_r; repeat split; now auto);
    events_norm;
    (eexists; split; [reflexivity |]; cbn [List.length Nat.add];
     split; [reflexivity |]; split; [lia |];
     split; [repeat constructor | reflexivity]).
Qed.

(** X9.  The random suffix and the clock belong to the last step: a run
    that fails has drawn no random number and has not read the clock, and
    a run that succeeds has made two requests, drawn ten random numbers
    and read the clock once. *)
Theorem getDirectLink_draws_only_on_success w v st :
  match fst (getDirectLink w v st) with
  | Normal _ =>
      fetches (snd (getDirectLink w v st)) = (2 + fetches st)%nat
      /\ randoms (snd (getDirectLink w v st)) = (10 + randoms st)%nat
      /\ clocks (snd (getDirectLink w v st)) = (1 + clocks st)%nat
  | Throw _ =>
      randoms (snd (getDirectLink w v st)) = randoms st
      /\ clocks (snd (getDirectLink w v st)) = clocks st
  end.
Proof.
  destruct v as [| | url]; try (split; reflexivity).
  unfold_js. explore; repeat split; reflexivity.
Qed.





(** X11.  [getDirectLink] fails in these ways only: the input is empty,
    one of the two patterns is missing from the page, the [URL]
    constructor rejects the fragment, the video base URL is empty, a
    response has a status outside the success range, a request is aborted
    by its timer, [fetch] rejects, or a body cannot be read. *)
Theorem getDirectLink_error_kinds w v st e :
  fst (getDirectLink w v st) = Throw e ->
  e = Error "Embed URL cannot be empty"
  \/ (exists url, v = Str url /\ e = Error ("pass_md5 URL not found in " ++ url))
  \/ (exists url, v = Str url /\ e = Error ("Token not found in " ++ url))
  \/ e = TypeError "Invalid URL"
  \/ e = Error "Empty video base URL received"
  \/ (exists r,
        ok r = false /\ e = Error ("HTTP error! status: " ++ Number_toString (status r)))
  \/ e = AbortError
  \/ (exists n u, fetch_settles w n u = Rejects e)
  \/ (exists n u r, fetch_settles w n u = Resolves r /\ text r = Throw e).
Proof.
  destruct v as [| | url]; try (intros [= <-]; now left).
  unfold_js. explore; intros [= <-]; pick.
Qed.

(** X11 on a page without the call that loads the [pass_md5] path. *)
Lemma getDirectLink_error_kinds_witness :
  let e := Error ("pass_md5 URL not found in " ++ Examples.embed) in
  e = Error "Embed URL cannot be empty"
  \/ (exists url,
         Str Examples.embed = Str url /\ e = Error ("pass_md5 URL not found in " ++ url))
  \/ (exists url,
         Str Examples.embed = Str url /\ e = Error ("Token not found in " ++ url))
  \/ e = TypeError "Invalid URL"
  \/ e = Error "Empty video base URL received"
  \/ (exists r,
        ok r = false /\ e = Error ("HTTP error! status: " ++ Number_toString (status r)))
  \/ e = AbortError
  \/ (exists n u, fetch_settles Examples.w_nothing n u = Rejects e)
  \/ (exists n u r,
         fetch_settles Examples.w_nothing n u = Resolves r /\ text r = Throw e).
Proof.
  apply (getDirectLink_error_kinds Examples.w_nothing (Str Examples.embed) initial).
  vm_compute. reflexivity.
Defined.

(** X12.  The console is shown no error on a run that succeeds, and on a
    run that fails it is shown the error that is thrown and no other: each
    handler on the way reports it and throws it on. *)
Theorem getDirectLink_reports_what_it_throws w v st :
  exists new,
    reported (trace (snd (getDirectLink w v st))) = (reported (trace st) ++ new)%list
    /\ match fst (getDirectLink w v st) with
       | Normal _ => new = []
       | Throw e =>
           Forall (eq e) new
           /\ (new = [] -> e = Error "Embed URL cannot be empty")
       end.
Proof.
  destruct v as [| | url];
    try (exists []; rewrite app_nil_r; repeat split; now auto).
  unfold_js. explore; events_norm;
    first
      [ exists []; rewrite app_nil_r; split; [reflexivity |];
        first [reflexivity | split; [constructor | reflexivity]]
      | eexists; split; [reflexivity |];
        split; [repeat constructor | intros [=]] ].
Qed.

(** ** Requests that fail *)

(** X13.  A request that is not answered within thirty seconds ends the
    run: the timer fires, and [getDirectLink] fails with the abort error,
    for the embed page (no second request is made then) as for the
    [pass_md5] URL. *)
Theorem timeout_ends_run w st url :
  url <> "" ->
  (fetch_settles w (fetches st) url = Stalls ->
   fst (getDirectLink w (Str url) st) = Throw AbortError
   /\ fetched (trace (snd (getDirectLink w (Str url) st)))
      = (fetched (trace st) ++ [(url, _getHeaders)])%list
   /\ In (EvTimerFired (next_timer st)) (trace (snd (getDirectLink w (Str url) st))))
  /\ (forall content fragment token passUrl,
         served w (fetches st) url content ->
         _extractData PASS_MD5_PATTERN content = Some fragment ->
         _extractData TOKEN_PATTERN content = Some token ->
         pass_md5_target w fragment = Some passUrl ->
         fetch_settles w (S (fetches st)) passUrl = Stalls ->
         fst (getDirectLink w (Str url) st) = Throw AbortError
         /\ In (EvTimerFired (S (next_timer st)))
               (trace (snd (getDirectLink w (Str url) st)))).
Proof.
  intros Hurl. split.
  - intros Hf. apply truthy_iff in Hurl.
    unfold_js. step Hurl. step Hf.
    split; [reflexivity |]. split; [now events_norm |].
    rewrite !in_app_iff. cbn [In]. tauto.
  - intros content fragment token passUrl Hpage Hfrag Htok Htarget Hf2.
    destruct Hpage as (r1 & Hf1 & Hok1 & Ht1).
    apply truthy_iff in Hurl.
    pose proof (fragment_truthy _ _ Hfrag) as Hfragment.
    pose proof (token_truthy _ _ Htok) as Htoken.
    unfold_js. step Hurl. step Hf1. step Hok1. step Ht1. step Hfrag. step Hfragment.
    destruct (resolved_target _ _ _ Htarget) as [[Hs ->] | [Hs (u & Hu & <-)]];
      [step Hs | step Hs; step Hu];
      step Htok; step Htoken; step Hf2;
      (split; [reflexivity |]); rewrite !in_app_iff; cbn [In]; tauto.
Qed.

(** X13 on an embed page that is never answered. *)
Lemma timeout_ends_run_witness :
  fst (getDirectLink Failures.w_stalls (Str Examples.embed) initial) = Throw AbortError
  /\ fetched (trace (snd (getDirectLink Failures.w_stalls (Str Examples.embed) initial)))
     = (fetched (trace initial) ++ [(Examples.embed, _getHeaders)])%list
  /\ In (EvTimerFired (next_timer initial))
        (trace (snd (getDirectLink Failures.w_stalls (Str Examples.embed) initial))).
Proof.
  apply (proj1 (timeout_ends_run Failures.w_stalls initial Examples.embed
                  ltac:(discriminate))).
  vm_compute. reflexivity.
Defined.

(** X14.  A failure of the network passes through unchanged: when [fetch]
    rejects, or the body of a response cannot be read, [getDirectLink]
    fails with that very error, at the first request as at the second. *)
Theorem network_failure_propagates w st url e :
  url <> "" ->
  (fetch_settles w (fetches st) url = Rejects e ->
   fst (getDirectLink w (Str url) st) = Throw e)
  /\ (forall r,
         fetch_settles w (fetches st) url = Resolves r -> ok r = true ->
         text r = Throw e ->
         fst (getDirectLink w (Str url) st) = Throw e)
  /\ (forall content fragment token passUrl,
         served w (fetches st) url content ->
         _extractData PASS_MD5_PATTERN content = Some fragment ->
         _extractData TOKEN_PATTERN content = Some token ->
         pass_md5_target w fragment = Some passUrl ->
         (fetch_settles w (S (fetches st)) passUrl = Rejects e
          \/ exists r,
               fetch_settles w (S (fetches st)) passUrl = Resolves r
               /\ ok r = true /\ text r = Throw e) ->
         fst (getDirectLink w (Str url) st) = Throw e).
Proof.
  intros Hurl. split; [| split].
  - intros Hf. apply truthy_iff in Hurl.
    unfold_js. step Hurl. step Hf. reflexivity.
  - intros r Hf Hok Ht. apply truthy_iff in Hurl.
    unfold_js. step Hurl. step Hf. step Hok. step Ht. reflexivity.
  - intros content fragment token passUrl Hpage Hfrag Htok Htarget
           [Hf2 | (r2 & Hf2 & Hok2 & Ht2)].
    + destruct Hpage as (r1 & Hf1 & Hok1 & Ht1).
      apply truthy_iff in Hurl.
      pose proof (fragment_truthy _ _ Hfrag) as Hfragment.
      pose proof (token_truthy _ _ Htok) as Htoken.
      unfold_js. step Hurl. step Hf1. step Hok1. step Ht1. step Hfrag. step Hfragment.
      destruct (resolved_target _ _ _ Htarget) as [[Hs ->] | [Hs (u & Hu & <-)]];
        [step Hs | step Hs; step Hu];
        step Htok; step Htoken; step Hf2; reflexivity.
    + destruct Hpage as (r1 & Hf1 & Hok1 & Ht1).
      apply truthy_iff in Hurl.
      pose proof (fragment_truthy _ _ Hfrag) as Hfragment.
      pose proof (token_truthy _ _ Htok) as Htoken.
      unfold_js. step Hurl. step Hf1. step Hok1. step Ht1. step Hfrag. step Hfragment.
      destruct (resolved_target _ _ _ Htarget) as [[Hs ->] | [Hs (u & Hu & <-)]];
        [step Hs | step Hs; step Hu];
        step Htok; step Htoken; step Hf2; step Hok2; step Ht2; reflexivity.
Qed.

(** X14 when the [pass_md5] endpoint cannot be reached. *)
Lemma network_failure_propagates_witness :
  fst (getDirectLink Failures.w_pass_offline (Str Examples.embed) initial)
  = Throw (TypeError "Failed to fetch").
Proof.
  apply (proj2 (proj2 (network_failure_propagates Failures.w_pass_offline initial
                         Examples.embed (TypeError "Failed to fetch")
                         ltac:(discriminate)))
           (Examples.page "/pass_md5/xyz") "/pass_md5/xyz" "tk9abc"
           Failures.pass_md5_url).
  - eexists. split; [vm_compute; reflexivity | split; reflexivity].
  - vm_compute. reflexivity.
  - vm_compute. reflexivity.
  - vm_compute. reflexivity.
  - left. vm_compute. reflexivity.
Defined.

(** ** Trimming and the video base URL *)

Lemma trimStart_parts s :
  exists a, s = a ++ trimStart s /\ JSString.forallb is_white a = true.
Proof.
  induction s as [| c s (a & IH & Ha)]; [now exists "" |].
  cbn [trimStart]. destruct (is_white c) eqn:Hc.
  - exists (String c a). rewrite append_cons, <- IH.
    cbn [JSString.forallb]. now rewrite Hc, Ha.
  - now exists "".
Qed.

Lemma trimEnd_parts s :
  exists b, s = trimEnd s ++ b /\ JSString.forallb is_white b = true.
Proof.
  induction s as [| c s (b & IH & Hb)]; [now exists "" |].
  cbn [trimEnd]. destruct (trimEnd s) as [| d t] eqn:E.
  - rewrite append_nil in IH. subst b. destruct (is_white c) eqn:Hc.
    + exists (String c s). cbn [JSString.forallb]. now rewrite Hc, Hb.
    + now exists s.
  - exists b. now rewrite append_cons, <- IH.
Qed.

Lemma trimStart_head s : starts_in is_white (trimStart s) = false.
Proof.
  induction s as [| c s IH]; [reflexivity |].
  cbn [trimStart]. now destruct (is_white c) eqn:Hc.
Qed.

Lemma trimEnd_head p s : starts_in p s = false -> starts_in p (trimEnd s) = false.
Proof.
  destruct s as [| c s]; [reflexivity |].
  cbn [trimEnd starts_in]. intros Hc.
  destruct (trimEnd s); [now destruct (is_white c) | exact Hc].
Qed.

Lemma trimEnd_last s : ends_in is_white (trimEnd s) = false.
Proof.
  induction s as [| c s IH]; [reflexivity |].
  cbn [trimEnd]. destruct (trimEnd s) as [| d t].
  - now destruct (is_white c) eqn:Hc.
  - exact IH.
Qed.

(** What [trim] returns is the string without a run of white space at
    each end, and it neither starts nor ends with white space. *)
Lemma trim_parts s :
  (exists a b,
      s = a ++ trim s ++ b
      /\ JSString.forallb is_white a = true /\ JSString.forallb is_white b = true)
  /\ starts_in is_white (trim s) = false
  /\ ends_in is_white (trim s) = false.
Proof.
  unfold trim. split; [| split].
  - destruct (trimStart_parts s) as (a & Ha & Hwa).
    destruct (trimEnd_parts (trimStart s)) as (b & Hb & Hwb).
    exists a, b. now rewrite <- Hb.
  - apply trimEnd_head, trimStart_head.
  - apply trimEnd_last.
Qed.

(** X15.  The video base URL that [_getVideoBaseUrl] returns is the body
    of a response with a success status, without the white space around
    it: it is not empty and neither starts nor ends with white space. *)
Theorem videoBaseUrl_is_trimmed_body w passMd5Url headers st videoBaseUrl :
  fst (_getVideoBaseUrl w passMd5Url headers st) = Normal videoBaseUrl ->
  exists r body a b,
    fetch_settles w (fetches st) passMd5Url = Resolves r /\ ok r = true
    /\ text r = Normal body
    /\ body = a ++ videoBaseUrl ++ b
    /\ JSString.forallb is_white a = true /\ JSString.forallb is_white b = true
    /\ videoBaseUrl <> ""
    /\ starts_in is_white videoBaseUrl = false
    /\ ends_in is_white videoBaseUrl = false.
Proof.
  unfold_js. cbn.
  destruct (fetch_settles w (fetches st) passMd5Url) as [r | e |]; cbn;
    try discriminate.
  destruct (ok r) eqn:Hok; cbn; [| discriminate].
  destruct (text r) as [body | e] eqn:Ht; cbn; [| discriminate].
  destruct (truthy (Some (trim body))) eqn:Hv; cbn; [| discriminate].
  intros [= <-]. apply truthy_iff in Hv.
  destruct (trim_parts body) as ((a & b & Hbody & Ha & Hb) & Hhead & Hlast).
  exists r, body, a, b. repeat split; auto.
Qed.

(** X15 on the answer of the ordinary world, which has a space before
    and a line feed after the URL. *)
Lemma videoBaseUrl_is_trimmed_body_witness :
  exists r body a b,
    fetch_settles Examples.w_ok 0 Failures.pass_md5_url = Resolves r /\ ok r = true
    /\ text r = Normal body
    /\ body = a ++ Examples.video_base ++ b
    /\ JSString.forallb is_white a = true /\ JSString.forallb is_white b = true
    /\ Examples.video_base <> ""
    /\ starts_in is_white Examples.video_base = false
    /\ ends_in is_white Examples.video_base = false.
Proof.
  apply (videoBaseUrl_is_trimmed_body Examples.w_ok Failures.pass_md5_url _getHeaders
           initial Examples.video_base).
  vm_compute. reflexivity.
Defined.

(** ** The metadata *)

Lemma split_flat s :
  Forall (fun seg => JSString.forallb not_slash seg = true) (split "/" s).
Proof.
  induction s as [| c s IH]; cbn [split]; [repeat constructor |].
  destruct (Ascii.eqb c "/") eqn:Hc; [now constructor |].
  destruct (split "/" s) as [| h t]; [repeat constructor; cbn; unfold not_slash; now rewrite Hc |].
  inversion IH as [| ? ? Hh Ht]; subst. constructor; [| exact Ht].
  cbn [JSString.forallb]. unfold not_slash at 1. now rewrite Hc, Hh.
Qed.

Lemma last_Forall {A} (P : A -> Prop) (l : list A) (d : A) :
  Forall P l -> l <> [] -> P (List.last l d).
Proof.
  induction 1 as [| x l Hx Hl IH]; [congruence |]. intros _.
  destruct l as [| y l]; [exact Hx |].
  change (P (List.last (y :: l) d)). apply IH. discriminate.
Qed.

Lemma last_segment_flat path :
  last_segment_or_video path <> ""
  /\ JSString.forallb not_slash (last_segment_or_video path) = true.
Proof.
  unfold last_segment_or_video.
  pose proof (last_Forall _ _ "" (split_flat path) (split_not_nil "/" path)) as H.
  cbv beta in H.
  destruct (List.last (split "/" path) "") as [| c seg]; [now split |].
  split; [discriminate | exact H].
Qed.

(** X16.  When [getDirectLink] fails, [getMetadata] fails with the same
    error, after one more report on the console, the last of the run. *)
Theorem getMetadata_passes_failure_on w v st e :
  fst (getDirectLink w v st) = Throw e ->
  fst (getMetadata w v st) = Throw e
  /\ trace (snd (getMetadata w v st))
     = (trace (snd (getDirectLink w v st)) ++ [EvError "Failed to get metadata:" e])%list.
Proof.
  unfold getMetadata, try_catch, bind.
  destruct (getDirectLink w v st) as [[link | e'] st1]; cbn; [discriminate |].
  intros [= <-]. now split.
Qed.

(** X16 on the empty input: here [getMetadata] reports the error that
    [getDirectLink] only throws. *)
Lemma getMetadata_passes_failure_on_witness :
  fst (getMetadata Examples.w_ok (Str "") initial)
  = Throw (Error "Embed URL cannot be empty")
  /\ trace (snd (getMetadata Examples.w_ok (Str "") initial))
     = (trace (snd (getDirectLink Examples.w_ok (Str "") initial))
        ++ [EvError "Failed to get metadata:" (Error "Embed URL cannot be empty")])%list.
Proof.
  apply (getMetadata_passes_failure_on Examples.w_ok (Str "") initial
           (Error "Embed URL cannot be empty")).
  reflexivity.
Defined.

(** A run that succeeds has made two requests and has logged the link it
    returns. *)
Lemma link_built w v st link :
  fst (getDirectLink w v st) = Normal link ->
  fetches (snd (getDirectLink w v st)) = (2 + fetches st)%nat
  /\ In (EvLog ("Built direct link: " ++ link)) (trace (snd (getDirectLink w v st))).
Proof.
  destruct v as [| | url]; try discriminate.
  unfold_js. explore; intros [= <-]; (split; [reflexivity |]).
  all: rewrite !in_app_iff; cbn [In]; tauto.
Qed.

(** X17.  The embed URL is parsed only after the link has been built: if
    the [URL] constructor rejects an embed URL on which [getDirectLink]
    succeeds, [getMetadata] fails with the constructor's error although
    both requests were made and the link was built. *)
Theorem getMetadata_parses_after_link w url st link :
  fst (getDirectLink w (Str url) st) = Normal link ->
  URL_ctor w url None = None ->
  fst (getMetadata w (Str url) st) = Throw (TypeError "Invalid URL")
  /\ fetches (snd (getMetadata w (Str url) st)) = (2 + fetches st)%nat
  /\ In (EvLog ("Built direct link: " ++ link)) (trace (snd (getMetadata w (Str url) st))).
Proof.
  intros Hlink Hurl.
  destruct (link_built _ _ _ _ Hlink) as [Hf Hlog].
  revert Hlink Hf Hlog.
  unfold getMetadata, try_catch, bind, new_URL.
  destruct (getDirectLink w (Str url) st) as [[link' | e'] st1]; cbn; [| discriminate].
  rewrite Hurl. cbn. intros [= <-] Hf Hlog.
  split; [reflexivity |]. split; [exact Hf |].
  rewrite in_app_iff. now left.
Qed.

(** X17 on an embed URL without scheme and host that the network
    serves. *)
Lemma getMetadata_parses_after_link_witness :
  let link := "https://cdn.example/v/abc~AGMSYejpv1?token=tk9abc&expiry=1730000000" in
  fst (getMetadata Failures.w_relative (Str "e/abc123") initial)
  = Throw (TypeError "Invalid URL")
  /\ fetches (snd (getMetadata Failures.w_relative (Str "e/abc123") initial))
     = (2 + fetches initial)%nat
  /\ In (EvLog ("Built direct link: " ++ link))
        (trace (snd (getMetadata Failures.w_relative (Str "e/abc123") initial))).
Proof.
  apply (getMetadata_parses_after_link Failures.w_relative "e/abc123" initial).
  - vm_compute. reflexivity.
  - vm_compute. reflexivity.
Defined.

(** X18.  [getMetadata] makes no request of its own, draws no random
    number, reads no clock and touches no timer: in all of these its run
    ends as the run of [getDirectLink] that it starts. *)
Theorem getMetadata_adds_no_request w v st :
  fetched (trace (snd (getMetadata w v st)))
  = fetched (trace (snd (getDirectLink w v st)))
  /\ fetches (snd (getMetadata w v st)) = fetches (snd (getDirectLink w v st))
  /\ randoms (snd (getMetadata w v st)) = randoms (snd (getDirectLink w v st))
  /\ clocks (snd (getMetadata w v st)) = clocks (snd (getDirectLink w v st))
  /\ next_timer (snd (getMetadata w v st)) = next_timer (snd (getDirectLink w v st))
  /\ timers (snd (getMetadata w v st)) = timers (snd (getDirectLink w v st)).
Proof.
  unfold getMetadata, try_catch, bind, new_URL.
  destruct (getDirectLink w v st) as [[link | e] st1]; cbn.
  - destruct (URL_ctor w _ None) as [u |]; cbn; repeat split; try reflexivity.
    now events_norm.
  - repeat split; try reflexivity. now events_norm.
Qed.

(** X19.  Whatever [getMetadata] returns, its [mp4] is the link that
    [getDirectLink] returns for the same input, its size is [null], its
    quality is unknown, its headers are those of the requests, and its
    [name] is [doodstream_], a file id and [.mp4], where the file id is
    not empty and has no slash in it. *)
Theorem metadata_is_flat_name_and_link w v st m :
  fst (getMetadata w v st) = Normal m ->
  fst (getDirectLink w v st) = Normal (mp4 m)
  /\ size m = None /\ quality m = "Unknown" /\ headers m = _getHeaders
  /\ exists fileId,
       name m = "doodstream_" ++ fileId ++ ".mp4"
       /\ fileId <> "" /\ JSString.forallb not_slash fileId = true.
Proof.
  unfold getMetadata, try_catch, bind, new_URL.
  destruct (getDirectLink w v st) as [[link | e] st1]; cbn; [| discriminate].
  destruct (URL_ctor w _ None) as [u |]; cbn; [| discriminate].
  intros [= <-]. cbn [mp4 size quality headers name].
  repeat (split; [reflexivity |]).
  rewrite fileId_is_last_segment.
  exists (last_segment_or_video (pathname u)).
  split; [reflexivity | apply last_segment_flat].
Qed.

(** X19 on the embed URL of the example. *)
Lemma metadata_is_flat_name_and_link_witness :
  let m :=
    mkMetadata "https://cdn.example/v/abc~AGMSYejpv1?token=tk9abc&expiry=1730000000"
               "doodstream_abc123.mp4" "Unknown" None _getHeaders in
  fst (getDirectLink Examples.w_ok (Str Examples.embed) initial) = Normal (mp4 m)
  /\ size m = None /\ quality m = "Unknown" /\ headers m = _getHeaders
  /\ exists fileId,
       name m = "doodstream_" ++ fileId ++ ".mp4"
       /\ fileId <> "" /\ JSString.forallb not_slash fileId = true.
Proof.
  apply (metadata_is_flat_name_and_link Examples.w_ok (Str Examples.embed) initial).
  vm_compute. reflexivity.
Defined.

(** ** The random string *)

(** X20.  For every length, [_generateRandomString] returns that many
    letters and digits, none for a length that is not positive, and draws
    one random number for each; it touches nothing else. *)
Theorem generateRandomString_any_length w length st :
  random_in_unit_interval w ->
  exists s,
    fst (_generateRandomString w length st) = Normal s
    /\ String.length s = Z.to_nat length
    /\ JSString.forallb is_alnum s = true
    /\ randoms (snd (_generateRandomString w length st))
       = (Z.to_nat length + randoms st)%nat
    /\ fetches (snd (_generateRandomString w length st)) = fetches st
    /\ clocks (snd (_generateRandomString w length st)) = clocks st
    /\ timers (snd (_generateRandomString w length st)) = timers st.
Proof.
  intros Hw. unfold _generateRandomString. rewrite random_chars_run.
  rewrite append_nil. cbn [fst snd].
  destruct (drawn_alnum w (Z.to_nat length) (randoms st) Hw) as [Hlen Hal].
  exists (drawn w (Z.to_nat length) (randoms st)).
  split; [reflexivity |]. split; [exact Hlen |]. split; [exact Hal |].
  now repeat split.
Qed.

(** X20 for three characters, and for a negative length. *)
Lemma generateRandomString_any_length_witness :
  (exists s,
      fst (_generateRandomString Examples.w_ok 3 initial) = Normal s
      /\ String.length s = Z.to_nat 3
      /\ JSString.forallb is_alnum s = true
      /\ randoms (snd (_generateRandomString Examples.w_ok 3 initial))
         = (Z.to_nat 3 + randoms initial)%nat
      /\ fetches (snd (_generateRandomString Examples.w_ok 3 initial)) = fetches initial
      /\ clocks (snd (_generateRandomString Examples.w_ok 3 initial)) = clocks initial
      /\ timers (snd (_generateRandomString Examples.w_ok 3 initial)) = timers initial)
  /\ (exists s,
        fst (_generateRandomString Examples.w_ok (-2) initial) = Normal s
        /\ String.length s = Z.to_nat (-2)
        /\ JSString.forallb is_alnum s = true
        /\ randoms (snd (_generateRandomString Examples.w_ok (-2) initial))
           = (Z.to_nat (-2) + randoms initial)%nat
        /\ fetches (snd (_generateRandomString Examples.w_ok (-2) initial))
           = fetches initial
        /\ clocks (snd (_generateRandomString Examples.w_ok (-2) initial))
           = clocks initial
        /\ timers (snd (_generateRandomString Examples.w_ok (-2) initial))
           = timers initial).
Proof.
  split.
  - apply (generateRandomString_any_length Examples.w_ok 3 initial).
    apply example_worlds_random.
  - apply (generateRandomString_any_length Examples.w_ok (-2) initial).
    apply example_worlds_random.
Defined.

(** X21.  The index [Math.floor(Math.random() * 62)] is a position of
    the alphabet for every number that [Math.random] may return: the
    rounding of the product never lifts it to 62, so [charAt] always finds
    a character, a letter or a digit. *)
Theorem random_index_in_alphabet x :
  unit_interval x = true ->
  0 <= floor_mul x (Z.of_nat (String.length RANDOM_STRING_CHARS)) <= 61
  /\ exists c,
       charAt RANDOM_STRING_CHARS
              (floor_mul x (Z.of_nat (String.length RANDOM_STRING_CHARS)))
       = String c ""
       /\ is_alnum c = true.
Proof.
  intros Hx. split.
  - change (Z.of_nat (String.length RANDOM_STRING_CHARS)) with 62.
    pose proof (floor_mul_62 x Hx). lia.
  - exact (random_char_alnum x Hx).
Qed.

(** X21 on the largest number below 1, 1 - 2^-53: the index is 61. *)
Lemma random_index_in_alphabet_witness :
  let x := (2 ^ 53 - 1) * 2 ^ 1021 in
  unit_interval x = true
  /\ floor_mul x 62 = 61
  /\ 0 <= floor_mul x (Z.of_nat (String.length RANDOM_STRING_CHARS)) <= 61
  /\ exists c,
       charAt RANDOM_STRING_CHARS
              (floor_mul x (Z.of_nat (String.length RANDOM_STRING_CHARS)))
       = String c ""
       /\ is_alnum c = true.
Proof.
  split; [vm_compute; reflexivity |].
  split; [vm_compute; reflexivity |].
  apply (random_index_in_alphabet ((2 ^ 53 - 1) * 2 ^ 1021)).
  vm_compute. reflexivity.
Defined.

(** X22.  For every video base URL and token, [_buildDirectLink] returns
    the base, ten letters or digits, the token and an expiry, and the
    expiry is the clock reading in whole seconds, rounded down. *)
Theorem buildDirectLink_expiry_in_seconds w videoBaseUrl token st :
  random_in_unit_interval w ->
  exists suffix expiry,
    fst (_buildDirectLink w videoBaseUrl token st)
    = Normal (videoBaseUrl ++ suffix ++ "?token=" ++ token
                ++ "&expiry=" ++ Number_toString expiry)
    /\ String.length suffix = 10%nat
    /\ JSString.forallb is_alnum suffix = true
    /\ 1000 * expiry <= Date_now w (clocks st) < 1000 * expiry + 1000.
Proof.
  intros Hw.
  destruct (drawn_alnum w 10 (randoms st) Hw) as [Hlen Hal].
  exists (drawn w 10 (randoms st)), (Date_now w (clocks st) / 1000).
  split; [unfold_js; autorewrite with runs; reflexivity |].
  split; [exact Hlen |]. split; [exact Hal |].
  pose proof (Z.div_mod (Date_now w (clocks st)) 1000 ltac:(lia)) as Hdm.
  pose proof (Z.mod_pos_bound (Date_now w (clocks st)) 1000 ltac:(lia)) as Hm.
  lia.
Qed.

(** X22 in the ordinary world: the clock reads 1730000000123. *)
Lemma buildDirectLink_expiry_in_seconds_witness :
  exists suffix expiry,
    fst (_buildDirectLink Examples.w_ok Examples.video_base "tk9abc" initial)
    = Normal (Examples.video_base ++ suffix ++ "?token=" ++ "tk9abc"
                ++ "&expiry=" ++ Number_toString expiry)
    /\ String.length suffix = 10%nat
    /\ JSString.forallb is_alnum suffix = true
    /\ 1000 * expiry <= Date_now Examples.w_ok (clocks initial) < 1000 * expiry + 1000.
Proof.
  apply (buildDirectLink_expiry_in_seconds Examples.w_ok Examples.video_base "tk9abc"
           initial).
  apply example_worlds_random.
Defined.

(** ** What a returned link tells *)

(** X23.  A link is returned only if the whole chain went through: the
    input is a non-empty string, the embed page was served and matches both
    patterns, and the [pass_md5] request was served a body that is not
    blank; the link is then that body trimmed, ten characters drawn from
    the alphabet, the token of the page and the expiry. *)
Theorem getDirectLink_success_inversion w v st link :
  fst (getDirectLink w v st) = Normal link ->
  exists url token videoBaseUrl,
    v = Str url /\ url <> ""
    /\ resolvable w st url token videoBaseUrl
    /\ link = videoBaseUrl ++ drawn w 10 (randoms st) ++ "?token=" ++ token
                ++ "&expiry=" ++ Number_toString (Date_now w (clocks st) / 1000).
Proof.
  destruct v as [| | url]; try discriminate.
  unfold_js. explore; intros [= <-];
    (eexists _, _, _; split; [reflexivity |];
     split; [now apply truthy_iff |];
     split; [| reflexivity]);
    unfold resolvable, served, pass_md5_target;
    (eexists _, _, _, _;
     split; [eexists; split; [eassumption | split; eassumption] |];
     split; [eassumption |]; split; [eassumption |]);
    match goal with H : startsWith _ _ = _ |- _ => rewrite H end;
    try match goal with H : URL_ctor _ _ _ = _ |- _ => rewrite H end;
    cbn [option_map negb];
    (split; [reflexivity |];
     split; [eexists; split; [eassumption | split; eassumption] |];
     split; [reflexivity | now apply truthy_iff]).
Qed.

(** X23 in the ordinary world. *)
Lemma getDirectLink_success_inversion_witness :
  exists url token videoBaseUrl,
    Str Examples.embed = Str url /\ url <> ""
    /\ resolvable Examples.w_ok initial url token videoBaseUrl
    /\ "https://cdn.example/v/abc~AGMSYejpv1?token=tk9abc&expiry=1730000000"
       = videoBaseUrl ++ drawn Examples.w_ok 10 (randoms initial) ++ "?token=" ++ token
           ++ "&expiry="
           ++ Number_toString (Date_now Examples.w_ok (clocks initial) / 1000).
Proof.
  apply (getDirectLink_success_inversion Examples.w_ok (Str Examples.embed) initial).
  vm_compute. reflexivity.
Defined.
